(** * kowake: the repacking priority list, verified against its specification

    A shallow embedding of [src/kowake.py] (the function
    [create_repacking_priority_list_from_excel]) and proofs of the properties
    its specification states.

    How the program's data is read here.

    - A Python [str] is a [string] holding its UTF-8 bytes.  UTF-8 is
      self-synchronising, so the substring, prefix and suffix tests of Python,
      which work on code points, agree with the same tests on the bytes.
    - A number is an IEEE-754 binary64 value ([float], the kernel's primitive
      floats), which is what numpy's [float64] is.
    - A sheet cell as pandas hands it over is blank (NaN), a number or a text.
    - A [DataFrame] is its list of column labels and its rows in index order;
      a row maps a label to the value it holds in that column, so a label names
      one column: the labels of a sheet are taken to be distinct once trimmed,
      as [read_excel] makes them before trimming.
    - The four numeric columns are [float64] columns once lines 108-110 have
      converted them, and the arithmetic and the comparisons on them are
      numpy's: a division by zero yields an infinity or NaN, not an exception.
    - An openpyxl worksheet is the dictionary of its cells, keyed by
      (row, column), with the row and column dimensions set on it.
    - Exceptions are values: the body of the function yields either a result
      or a raised exception, and the [try]/[except] clauses are a function on
      that outcome.

    What pandas and Python leave to their own libraries (parsing a text as a
    number, printing a number, [repr] of a string) is gathered in the class
    [Library]; the pipeline is stated for every instance of it. *)

From Stdlib Require Import List String Ascii Bool Arith ZArith Lia Floats.
From Stdlib Require Import Permutation Sorted.
Import ListNotations.

(* ===================================================================== *)
(** * Python strings *)
(* ===================================================================== *)

Section PyStr.
Local Open Scope string_scope.

(** [s.startswith(p)] *)
Fixpoint startswith (p s : string) : bool :=
  match p, s with
  | EmptyString, _ => true
  | String a p', String b s' => Ascii.eqb a b && startswith p' s'
  | String _ _, EmptyString => false
  end.

(** [p in s]: some suffix of [s] starts with [p]. *)
Fixpoint str_contains (p s : string) : bool :=
  startswith p s ||
  match s with
  | EmptyString => false
  | String _ s' => str_contains p s'
  end.

(** [s.endswith(p)]: the suffix of [s] that is as long as [p] is [p]. *)
Fixpoint endswith (p s : string) : bool :=
  String.eqb p s ||
  match s with
  | EmptyString => false
  | String _ s' => endswith p s'
  end.

(** [s[n:]] *)
Fixpoint drop (n : nat) (s : string) : string :=
  match n, s with
  | O, _ => s
  | S n', String _ s' => drop n' s'
  | S _, EmptyString => EmptyString
  end.

Fixpoint str_rev_onto (s acc : string) : string :=
  match s with
  | EmptyString => acc
  | String a s' => str_rev_onto s' (String a acc)
  end.

Definition str_rev (s : string) : string := str_rev_onto s EmptyString.

Definition chr (n : nat) : string := String (ascii_of_nat n) EmptyString.

Definition bytes (l : list nat) : string :=
  fold_right (fun n s => String (ascii_of_nat n) s) EmptyString l.

(** The characters [str.isspace()] accepts, each as its UTF-8 bytes: the
    ASCII blanks and separators, NEL, NBSP, and the Unicode space
    separators up to the ideographic space U+3000. *)
Definition whitespace : list string :=
  map chr [9; 10; 11; 12; 13; 28; 29; 30; 31; 32]
  ++ map bytes
       [ [194; 133]; [194; 160]; [225; 154; 128];
         [226; 128; 128]; [226; 128; 129]; [226; 128; 130]; [226; 128; 131];
         [226; 128; 132]; [226; 128; 133]; [226; 128; 134]; [226; 128; 135];
         [226; 128; 136]; [226; 128; 137]; [226; 128; 138];
         [226; 128; 168]; [226; 128; 169]; [226; 128; 175];
         [226; 129; 159]; [227; 128; 128] ].

Fixpoint lstrip_with (ws : list string) (fuel : nat) (s : string) : string :=
  match fuel with
  | O => s
  | S fuel' =>
      match find (fun w => startswith w s) ws with
      | Some w => lstrip_with ws fuel' (drop (String.length w) s)
      | None => s
      end
  end.

(** [s.lstrip()], [s.rstrip()] and [s.strip()] *)
Definition lstrip (s : string) : string :=
  lstrip_with whitespace (String.length s) s.

Definition rstrip (s : string) : string :=
  str_rev (lstrip_with (map str_rev whitespace) (String.length s) (str_rev s)).

Definition strip (s : string) : string := rstrip (lstrip s).

(** [sep.join(l)] *)
Fixpoint join (sep : string) (l : list string) : string :=
  match l with
  | [] => ""
  | [x] => x
  | x :: l' => x ++ sep ++ join sep l'
  end.

(** [x in l] for a list of strings *)
Definition str_in (x : string) (l : list string) : bool :=
  existsb (String.eqb x) l.

Definition newline : string := chr 10.

Definition digit (n : nat) : string := chr (48 + n mod 10).

(** A number below 100 on two digits, as [%m] and [%d] print it. *)
Definition two_digits (n : nat) : string := digit (n / 10) ++ digit n.

End PyStr.

(* ===================================================================== *)
(** * float64 *)
(* ===================================================================== *)

Section Float64.
Local Open Scope float_scope.

(** [pd.isna(x)] on a number: NaN is the one value that differs from itself. *)
Definition isna (x : float) : bool := negb (x =? x).

(** [x != y] and [x > y] of numpy, elementwise. *)
Definition ne (x y : float) : bool := negb (x =? y).
Definition gt (x y : float) : bool := y <? x.

(** Three-way comparison of two numbers that are not NaN. *)
Definition num_cmp (x y : float) : comparison :=
  match x ?= y with
  | FEq => Eq
  | FLt => Lt
  | FGt => Gt
  | FNotComparable => Eq
  end.

(** The order [sort_values] puts on one key column: by value, upwards or
    downwards as [ascending] says, with NaN after every number either way
    ([na_position='last']). *)
Definition key_cmp (ascending : bool) (x y : float) : comparison :=
  match isna x, isna y with
  | true, true => Eq
  | true, false => Gt
  | false, true => Lt
  | false, false => if ascending then num_cmp x y else num_cmp y x
  end.

End Float64.

(* ===================================================================== *)
(** * Exceptions *)
(* ===================================================================== *)

(** The exception classes the [except] clauses tell apart; each carries
    [str(e)].  [Exception] stands for every other subclass of it. *)
Inductive exn : Type :=
| FileNotFoundError (msg : string)
| EmptyDataError (msg : string)
| ValueError (msg : string)
| KeyError (msg : string)
| Exception (msg : string).

Inductive outcome (A : Type) : Type :=
| Ok (a : A)
| Raise (e : exn).

Arguments Ok {A} a.
Arguments Raise {A} e.

Definition bind {A B : Type} (m : outcome A) (k : A -> outcome B) : outcome B :=
  match m with
  | Ok a => k a
  | Raise e => Raise e
  end.

Declare Scope py_scope.
Delimit Scope py_scope with py.
Notation "x <- m ;; k" := (bind m (fun x => k))
  (at level 61, m at next level, right associativity) : py_scope.

(* ===================================================================== *)
(** * pandas *)
(* ===================================================================== *)

(** A value in a column of the frame. *)
Inductive cell : Type :=
| Blank
| Num (x : float)
| Text (s : string).

(** What the libraries under pandas decide: which texts [to_numeric] reads as
    a number (and as which), how [astype(str)] prints a number, and [repr] of
    a string. *)
Class Library : Type := {
  str_to_float : string -> option float;
  float_to_str : float -> string;
  repr_str : string -> string
}.

Definition Row : Type := string -> cell.
Definition Series : Type := list cell.

Record DataFrame : Type := {
  columns : list string;
  rows : list Row
}.

Section Pandas.
Context {lib : Library}.
Local Open Scope string_scope.
Local Open Scope py_scope.

(** [df.empty]: the frame has no row, or no column. *)
Definition empty (df : DataFrame) : bool :=
  match rows df, columns df with
  | _ :: _, _ :: _ => false
  | _, _ => true
  end.

(** [df[label]]: the column, or [KeyError] when no column has the label. *)
Definition getitem (df : DataFrame) (label : string) : outcome Series :=
  if str_in label (columns df)
  then Ok (map (fun r => r label) (rows df))
  else Raise (KeyError (repr_str label)).

(** [df[mask]]: the rows whose entry in the boolean series is [True]. *)
Definition getitem_mask (df : DataFrame) (mask : list bool) : DataFrame :=
  {| columns := columns df;
     rows := map fst (filter snd (combine (rows df) mask)) |}.

Definition update (r : Row) (label : string) (v : cell) : Row :=
  fun l => if String.eqb l label then v else r l.

(** [pd.DataFrame()]: no column, no row. *)
Definition DataFrame_new : DataFrame := {| columns := []; rows := [] |}.

(** [df[label] = values] and [df.loc[:, label] = values]: the column is
    overwritten, or appended when the label is new; a frame that has no
    column yet takes its rows from the values. *)
Definition setitem (df : DataFrame) (label : string) (values : Series) : DataFrame :=
  {| columns := if str_in label (columns df) then columns df
                else columns df ++ [label];
     rows := match columns df with
             | [] => map (fun v => update (fun _ => Blank) label v) values
             | _ :: _ =>
                 map (fun rv : Row * cell => update (fst rv) label (snd rv))
                     (combine (rows df) values)
             end |}.

(** [df.columns = df.columns.str.strip()] *)
Definition relabel (old : list string) (r : Row) : Row :=
  fun l =>
    match find (fun c => String.eqb (strip c) l) old with
    | Some c => r c
    | None => Blank
    end.

Definition strip_columns (df : DataFrame) : DataFrame :=
  {| columns := map strip (columns df);
     rows := map (relabel (columns df)) (rows df) |}.

(** [.astype(str)] on one value; a missing value prints as [nan]. *)
Definition astype_str (c : cell) : string :=
  match c with
  | Blank => "nan"
  | Num x => float_to_str x
  | Text s => s
  end.

(** [pd.to_numeric(.., errors='coerce')] on one value: what cannot be read as
    a number becomes NaN. *)
Definition to_numeric (c : cell) : float :=
  match c with
  | Blank => nan
  | Num x => x
  | Text s =>
      match str_to_float s with
      | Some x => x
      | None => nan
      end
  end.

(** [.fillna(0)] on one number. *)
Definition fillna (v x : float) : float := if isna x then v else x.

(** The number a numeric column holds at a row; the converted columns hold
    numbers in every row. *)
Definition float64 (c : cell) : float :=
  match c with
  | Num x => x
  | _ => nan
  end.

(** [np.where(cond, a, b)] with a scalar [b]. *)
Definition np_where (cond : list bool) (a : list float) (b : float) : list float :=
  map (fun ca : bool * float => if fst ca then snd ca else b) (combine cond a).

(** [a / b] on two numeric series. *)
Definition series_div (a b : list float) : list float :=
  map (fun xy : float * float => (fst xy / snd xy)%float) (combine a b).

(** ** [sort_values] *)

(** Rows compared on the columns [by], the first column that tells them
    apart deciding. *)
Fixpoint row_cmp (by_ : list (string * bool)) (r1 r2 : Row) : comparison :=
  match by_ with
  | [] => Eq
  | (label, ascending) :: by' =>
      match key_cmp ascending (float64 (r1 label)) (float64 (r2 label)) with
      | Eq => row_cmp by' r1 r2
      | c => c
      end
  end.

Definition row_leb (by_ : list (string * bool)) (r1 r2 : Row) : bool :=
  match row_cmp by_ r1 r2 with
  | Gt => false
  | _ => true
  end.

(** A row is put in front of the first row it does not come after: rows
    with equal keys keep the order they arrive in. *)
Fixpoint insert_row (by_ : list (string * bool)) (r : Row) (l : list Row) : list Row :=
  match l with
  | [] => [r]
  | r' :: l' => if row_leb by_ r r' then r :: l else r' :: insert_row by_ r l'
  end.

Definition sort_rows (by_ : list (string * bool)) (l : list Row) : list Row :=
  fold_right (insert_row by_) [] l.

(** [df.sort_values(by=.., ascending=..)] with several keys: pandas sorts
    the key tuples with a stable sort. *)
Definition sort_values (df : DataFrame) (by_ : list string) (ascending : list bool) : DataFrame :=
  {| columns := columns df;
     rows := sort_rows (combine by_ ascending) (rows df) |}.

End Pandas.

(* ===================================================================== *)
(** * openpyxl *)
(* ===================================================================== *)

Record Side : Type := {
  border_style : option string;
  side_color : option string
}.

Record Border : Type := {
  left : Side;
  right : Side;
  top : Side;
  bottom : Side
}.

Record Font : Type := {
  bold : bool;
  size : option float;
  color : option string
}.

Record Alignment : Type := {
  horizontal : option string;
  vertical : option string
}.

Record Cell : Type := {
  value : cell;
  font : Font;
  border : Border;
  alignment : Alignment;
  number_format : string
}.

(** The sheet: its cells, latest assignment first, and the heights and
    widths set on its rows and columns (columns by letter). *)
Record Worksheet : Type := {
  cells : list (nat * nat * Cell);
  row_dimensions : list (nat * float);
  column_dimensions : list (string * float)
}.

Record Workbook : Type := {
  sheet_name : string;
  worksheet : Worksheet
}.

Section Openpyxl.
Local Open Scope string_scope.

Definition no_side : Side := {| border_style := None; side_color := None |}.

(** [Border()], [Font()], [Alignment()] and the cell a sheet creates on
    first access. *)
Definition no_border : Border :=
  {| left := no_side; right := no_side; top := no_side; bottom := no_side |}.
Definition default_font : Font :=
  {| bold := false; size := None; color := None |}.
Definition default_alignment : Alignment :=
  {| horizontal := None; vertical := None |}.
Definition default_cell : Cell :=
  {| value := Blank; font := default_font; border := no_border;
     alignment := default_alignment; number_format := "General" |}.

Definition set_value (v : cell) (c : Cell) : Cell :=
  {| value := v; font := font c; border := border c;
     alignment := alignment c; number_format := number_format c |}.
Definition set_font (f : Font) (c : Cell) : Cell :=
  {| value := value c; font := f; border := border c;
     alignment := alignment c; number_format := number_format c |}.
Definition set_border (b : Border) (c : Cell) : Cell :=
  {| value := value c; font := font c; border := b;
     alignment := alignment c; number_format := number_format c |}.
Definition set_alignment (a : Alignment) (c : Cell) : Cell :=
  {| value := value c; font := font c; border := border c;
     alignment := a; number_format := number_format c |}.
Definition set_number_format (f : string) (c : Cell) : Cell :=
  {| value := value c; font := font c; border := border c;
     alignment := alignment c; number_format := f |}.

Definition same_key (k1 k2 : nat * nat) : bool :=
  Nat.eqb (fst k1) (fst k2) && Nat.eqb (snd k1) (snd k2).

(** The cell stored at a coordinate, if the sheet has one there. *)
Fixpoint lookup (k : nat * nat) (m : list (nat * nat * Cell)) : option Cell :=
  match m with
  | [] => None
  | (k', c) :: m' => if same_key k k' then Some c else lookup k m'
  end.

(** [ws.cell(row, column)]: the stored cell, or a fresh one. *)
Definition ws_cell (ws : Worksheet) (row col : nat) : Cell :=
  match lookup (row, col) (cells ws) with
  | Some c => c
  | None => default_cell
  end.

(** An attribute assignment on [ws.cell(row, column)]; the cell comes to
    exist if it did not. *)
Definition modify (ws : Worksheet) (row col : nat) (f : Cell -> Cell) : Worksheet :=
  {| cells := ((row, col), f (ws_cell ws row col)) :: cells ws;
     row_dimensions := row_dimensions ws;
     column_dimensions := column_dimensions ws |}.

(** [ws.row_dimensions[row].height = h] *)
Definition set_row_height (ws : Worksheet) (row : nat) (h : float) : Worksheet :=
  {| cells := cells ws;
     row_dimensions := (row, h) :: row_dimensions ws;
     column_dimensions := column_dimensions ws |}.

(** [ws.column_dimensions[letter].width = w] *)
Definition set_column_width (ws : Worksheet) (letter : string) (w : float) : Worksheet :=
  {| cells := cells ws;
     row_dimensions := row_dimensions ws;
     column_dimensions := (letter, w) :: column_dimensions ws |}.

Fixpoint row_height (row : nat) (m : list (nat * float)) : option float :=
  match m with
  | [] => None
  | (r, h) :: m' => if Nat.eqb row r then Some h else row_height row m'
  end.

(** [ws.max_row] and [ws.max_column]: the largest row and column that hold a
    cell, 1 on an empty sheet. *)
Definition max_row (ws : Worksheet) : nat :=
  fold_right (fun kc m => Nat.max (fst (fst kc)) m) 1 (cells ws).
Definition max_column (ws : Worksheet) : nat :=
  fold_right (fun kc m => Nat.max (snd (fst kc)) m) 1 (cells ws).

(** [get_column_letter], as the source writes it out (lines 16-21). *)
Fixpoint column_letter_loop (fuel idx : nat) (letter : string) : string :=
  match fuel with
  | O => letter
  | S fuel' =>
      if Nat.ltb 0 idx
      then column_letter_loop fuel' ((idx - 1) / 26)
             (chr (65 + (idx - 1) mod 26) ++ letter)
      else letter
  end.

Definition get_column_letter (idx : nat) : string :=
  column_letter_loop idx idx "".

(** [Index.get_loc]: the position of a label, [None] standing for the
    [KeyError]. *)
Fixpoint get_loc (label : string) (l : list string) : option nat :=
  match l with
  | [] => None
  | x :: l' =>
      if String.eqb label x then Some 0
      else match get_loc label l' with
           | Some n => Some (S n)
           | None => None
           end
  end.

Definition enumerate {A : Type} (l : list A) : list (nat * A) :=
  combine (seq 0 (List.length l)) l.

(** The style pandas gives the header cells it writes: bold, thin borders,
    centred.  Lines 209-213 overwrite the border and the alignment. *)
Definition thin_side (c : option string) : Side :=
  {| border_style := Some "thin"; side_color := c |}.
Definition header_style (v : cell) : Cell :=
  {| value := v;
     font := {| bold := true; size := None; color := None |};
     border := {| left := thin_side None; right := thin_side None;
                  top := thin_side None; bottom := thin_side None |};
     alignment := {| horizontal := Some "center"; vertical := Some "top" |};
     number_format := "General" |}.

(** [df.to_excel(writer, index=False, startrow=startrow)]: the labels on
    sheet row [startrow + 1], the rows of the frame below it, one cell per
    column in the order of [df.columns].  Each value goes to the sheet as the
    frame holds it; how the writer spells a missing or an infinite number
    ([na_rep], [inf_rep]) is left out. *)
Definition to_excel (df : DataFrame) (startrow : nat) : Worksheet :=
  {| cells :=
       flat_map
         (fun ir : nat * Row =>
            map (fun jc : nat * string =>
                   ((startrow + 2 + fst ir, S (fst jc)),
                    set_value (snd ir (snd jc)) default_cell))
                (enumerate (columns df)))
         (enumerate (rows df))
       ++ map (fun jc : nat * string =>
                 ((startrow + 1, S (fst jc)), header_style (Text (snd jc))))
              (enumerate (columns df));
     row_dimensions := [];
     column_dimensions := [] |}.

End Openpyxl.

(* ===================================================================== *)
(** * The pipeline: [create_repacking_priority_list_from_excel] *)
(* ===================================================================== *)

(** The argument of the function: how it prints, and what
    [pd.read_excel(file, header=1, sheet_name=sheet_name)] makes of it. *)
Record ExcelFile : Type := {
  file_str : string;
  read_excel : outcome DataFrame
}.

(** [datetime.datetime.now()], as far as [strftime] looks at it. *)
Record datetime : Type := {
  month : nat;
  day : nat
}.

(** (success flag, message, file name, Excel data) *)
Definition result : Type := bool * string * option string * option Workbook.

Section Kowake.
Context {lib : Library}.
Local Open Scope string_scope.
Local Open Scope py_scope.

Definition product_code_col_excel : string := "商品コード".
Definition product_name_col_excel : string := "商品名".
Definition prev_day_stock_col_excel : string := "昨日残".
Definition today_received_col_excel : string := "今日入荷（作成）".
Definition delivery_qty_col_excel : string := "納品数".
Definition action_needed_col_excel : string :=
  "集荷便から降ろす数/小分けしないと足りない数".

Definition required_input_cols_map : list (string * string) :=
  [ ("商品コード(A列)", product_code_col_excel);
    ("商品名(B列)", product_name_col_excel);
    ("昨日残(C列)", prev_day_stock_col_excel);
    ("今日入荷作成(D列)", today_received_col_excel);
    ("納品数(E列)", delivery_qty_col_excel);
    ("小分け不足数(K列)", action_needed_col_excel) ].

Definition numeric_cols_to_convert : list string :=
  [ prev_day_stock_col_excel; today_received_col_excel;
    delivery_qty_col_excel; action_needed_col_excel ].

Definition calculated_fulfillment : string := "calculated_充足率".
Definition calculated_E_K_ratio : string := "calculated_E_K_ratio".

(** [str(l)] for a list of strings *)
Definition list_str (l : list string) : string :=
  "[" ++ join ", " (map repr_str l) ++ "]".

(** Lines 82-85 *)
Definition missing_entry (da : string * string) : string :=
  fst da ++ " (想定ヘッダー名: '" ++ snd da ++ "')".

Definition missing_excel_cols (df : DataFrame) : list string :=
  map missing_entry
      (filter (fun da : string * string => negb (str_in (snd da) (columns df)))
              required_input_cols_map).

(** Lines 88-90 *)
Definition missing_message (missing available_cols : list string) : string :=
  "Excelファイルに必要な列が見つかりません: " ++ join ", " missing ++ "。" ++ newline
  ++ "Excelファイルの最初のシートの2行目のヘッダー名を確認してください。" ++ newline
  ++ "読み込まれたExcelヘッダー: " ++ list_str available_cols.

Definition no_diamond_message : string :=
  "対象商品（商品名に「◇」を含む）が見つかりませんでした。".
Definition no_non_toichi_message : string :=
  "対象商品（商品名に「◇」を含み、かつ末尾が「東一」でない）が見つかりませんでした。".
Definition no_quantity_message : string :=
  "対象商品（商品名に「◇」を含み、末尾が「東一」でなく、かつ「今日入荷（作成）」が0でない）は見つかりませんでした。".

(** Lines 108-110: one turn of the loop over the numeric columns. *)
Definition convert_column (df : DataFrame) (col : string) : outcome DataFrame :=
  if str_in col (columns df)
  then s <- getitem df col ;;
       Ok (setitem df col (map (fun c => Num (fillna 0 (to_numeric c))) s))
  else Ok df.

Fixpoint convert_columns (df : DataFrame) (cols : list string) : outcome DataFrame :=
  match cols with
  | [] => Ok df
  | col :: cols' => df' <- convert_column df col ;; convert_columns df' cols'
  end.

Definition nonzero (s : Series) : list bool :=
  map (fun c => ne (float64 c) 0) s.
Definition positive (s : Series) : list bool :=
  map (fun c => gt (float64 c) 0) s.

(** Lines 117-127: the two calculated columns. *)
Definition add_fulfillment (df : DataFrame) : outcome DataFrame :=
  cond <- getitem df delivery_qty_col_excel ;;
  a <- getitem df prev_day_stock_col_excel ;;
  b <- getitem df delivery_qty_col_excel ;;
  Ok (setitem df calculated_fulfillment
        (map Num (np_where (nonzero cond)
                           (series_div (map float64 a) (map float64 b)) 0))).

Definition add_E_K_ratio (df : DataFrame) : outcome DataFrame :=
  cond <- getitem df action_needed_col_excel ;;
  a <- getitem df delivery_qty_col_excel ;;
  b <- getitem df action_needed_col_excel ;;
  Ok (setitem df calculated_E_K_ratio
        (map Num (np_where (positive cond)
                           (series_div (map float64 a) (map float64 b)) (-1)))).

(** Lines 130-133 *)
Definition sort_by : list string :=
  [ calculated_fulfillment; action_needed_col_excel;
    prev_day_stock_col_excel; calculated_E_K_ratio ].
Definition sort_ascending : list bool := [true; true; true; false].

(** Lines 136-143 *)
Definition output_columns : list (string * string) :=
  [ ("商品コード", product_code_col_excel);
    ("商品名", product_name_col_excel);
    ("昨日残", prev_day_stock_col_excel);
    ("本日作成", today_received_col_excel);
    ("納品数", delivery_qty_col_excel);
    ("不足数", action_needed_col_excel);
    ("充足率", calculated_fulfillment) ].

Fixpoint assign_columns (out src : DataFrame) (cols : list (string * string))
  : outcome DataFrame :=
  match cols with
  | [] => Ok out
  | (label, from) :: cols' =>
      s <- getitem src from ;;
      assign_columns (setitem out label s) src cols'
  end.

Definition make_output_df (df_sorted : DataFrame) : outcome DataFrame :=
  assign_columns DataFrame_new df_sorted output_columns.

(** ** Rendering (lines 150-253) *)

Definition thin_border_side : Side :=
  {| border_style := Some "thin"; side_color := Some "000000" |}.
Definition thin_border : Border :=
  {| left := thin_border_side; right := thin_border_side;
     top := thin_border_side; bottom := thin_border_side |}.
Definition title_font : Font :=
  {| bold := true; size := Some 14%float; color := None |}.
Definition bold_font : Font :=
  {| bold := true; size := None; color := None |}.
Definition red_font_for_shortage : Font :=
  {| bold := true; size := None; color := Some "FF0000" |}.
Definition data_row_vertical_alignment : Alignment :=
  {| horizontal := None; vertical := Some "center" |}.
Definition header_row_center_alignment : Alignment :=
  {| horizontal := Some "center"; vertical := Some "center" |}.

Definition column_widths : list float :=
  [9.0; 37.0; 7.5; 9.0; 7.5; 7.5; 7.5]%float.

Definition footer1_text : string :=
  "※充足率＝「納品数」に対する「昨日残数」の割合（昨日残数÷納品数）".
Definition footer2_text : string :=
  "※「東一」用の商品名の記載はありませんが、該当商品の不足数には反映されています。".

(** Lines 158-164 *)
Definition write_title (ws : Worksheet) (now : datetime) : Worksheet :=
  let title_text :=
    two_digits (month now) ++ "月" ++ two_digits (day now) ++ "日"
    ++ " 小分け作成メモ" in
  let ws := modify ws 1 2 (set_value (Text title_text)) in
  let ws := modify ws 1 2 (set_font title_font) in
  modify ws 1 2 (set_alignment {| horizontal := None; vertical := Some "center" |}).

(** Lines 178-181 *)
Definition set_column_widths (ws : Worksheet) : Worksheet :=
  fold_left
    (fun w iw => set_column_width w (get_column_letter (fst iw + 1)) (snd iw))
    (enumerate column_widths) ws.

(** Lines 184-196: the letter of an output column, [None] when it has no
    such column. *)
Definition column_letter_of (label : string) (output_df : DataFrame) : option string :=
  match get_loc label (columns output_df) with
  | Some i => Some (get_column_letter (i + 1))
  | None => None
  end.

Definition is_letter (letter : option string) (current : string) : bool :=
  match letter with
  | Some l => negb (String.eqb l "") && String.eqb current l
  | None => false
  end.

(** Lines 203-220: what the loop does to one cell. *)
Definition style_cell (honjitsu_sakusei_col_letter shortage_col_letter : option string)
    (row col : nat) (c : Cell) : Cell :=
  let current_cell_col_letter := get_column_letter col in
  if Nat.eqb row 1 then
    if Nat.eqb col 2
    then set_alignment {| horizontal := None; vertical := Some "center" |} c
    else c
  else if Nat.eqb row 2 then
    let c := set_border thin_border c in
    let c := set_alignment header_row_center_alignment c in
    if is_letter honjitsu_sakusei_col_letter current_cell_col_letter
    then set_font bold_font c else c
  else
    let c := set_border thin_border c in
    let c := set_alignment data_row_vertical_alignment c in
    if is_letter honjitsu_sakusei_col_letter current_cell_col_letter
    then set_font bold_font c
    else if is_letter shortage_col_letter current_cell_col_letter
    then set_font red_font_for_shortage c else c.

(** Lines 200-202: one row of the sheet, from column 1 to the last column
    in use. *)
Definition style_row (honjitsu shortage : option string)
    (ws : Worksheet) (row_idx : nat) : Worksheet :=
  let ws := set_row_height ws row_idx 18.0 in
  fold_left (fun w col => modify w row_idx col (style_cell honjitsu shortage row_idx col))
            (seq 1 (max_column ws)) ws.

Definition style_rows (honjitsu shortage : option string) (ws : Worksheet) : Worksheet :=
  fold_left (style_row honjitsu shortage) (seq 1 (max_row ws)) ws.

(** Lines 223-233 *)
Definition format_percent (ws : Worksheet) (output_df : DataFrame) : Worksheet :=
  match get_loc "充足率" (columns output_df) with
  | Some i =>
      let column_index_percent := i + 1 in
      fold_left (fun w row_num =>
                   modify w row_num column_index_percent (set_number_format "0.0%"))
                (seq 3 (max_row ws + 1 - 3)) ws
  | None => ws
  end.

(** Lines 236-251 *)
Definition write_footers (ws : Worksheet) : Worksheet :=
  if Nat.leb 2 (max_row ws) then
    let footer1_row_num := max_row ws + 2 in
    let ws := set_row_height ws footer1_row_num 18.0 in
    let ws := modify ws footer1_row_num 1 (set_value (Text footer1_text)) in
    let ws := modify ws footer1_row_num 1 (set_alignment data_row_vertical_alignment) in
    let footer2_row_num := footer1_row_num + 1 in
    let ws := set_row_height ws footer2_row_num 18.0 in
    let ws := modify ws footer2_row_num 1 (set_value (Text footer2_text)) in
    modify ws footer2_row_num 1 (set_alignment data_row_vertical_alignment)
  else ws.

Definition render (output_df : DataFrame) (now_title : datetime) : Workbook :=
  let ws := to_excel output_df 1 in
  let ws := write_title ws now_title in
  let ws := set_column_widths ws in
  let honjitsu_sakusei_col_letter := column_letter_of "本日作成" output_df in
  let shortage_col_letter := column_letter_of "不足数" output_df in
  let ws := style_rows honjitsu_sakusei_col_letter shortage_col_letter ws in
  let ws := format_percent ws output_df in
  let ws := write_footers ws in
  {| sheet_name := "作業優先リスト"; worksheet := ws |}.

(** ** The body of the [try] (lines 61-255) *)

(** Lines 93 and 97: the two tests on the product name. *)
Definition has_diamond (c : cell) : bool := str_contains "◇" (astype_str c).
Definition ends_with_toichi (c : cell) : bool := endswith "東一" (astype_str c).

Definition filter_diamond (df : DataFrame) : outcome DataFrame :=
  s <- getitem df product_name_col_excel ;;
  Ok (getitem_mask df (map has_diamond s)).

Definition filter_toichi (df : DataFrame) : outcome DataFrame :=
  s <- getitem df product_name_col_excel ;;
  Ok (getitem_mask df (map (fun c => negb (ends_with_toichi c)) s)).

Definition filter_quantity (df : DataFrame) : outcome DataFrame :=
  s <- getitem df today_received_col_excel ;;
  Ok (getitem_mask df (nonzero s)).

Definition output_filename_of (now : datetime) : string :=
  two_digits (month now) ++ two_digits (day now) ++ "_小分け作業の判断指標.xlsx".

Definition done_message (output_filename : string) : string :=
  "処理が完了しました。「" ++ output_filename ++ "」を確認してください。".

(** Lines 72-127, on the frame whose labels are trimmed (line 61): either
    the result the function returns there and then, or [df_filtered] with
    its two calculated columns. *)
Definition select_rows (df : DataFrame) : outcome (result + DataFrame) :=
  let available_cols := columns df in
  let missing := missing_excel_cols df in
  match missing with
  | _ :: _ => Ok (inl (false, missing_message missing available_cols, None, None))
  | [] =>
  df_temp_filtered <- filter_diamond df ;;
  if empty df_temp_filtered then Ok (inl (true, no_diamond_message, None, None)) else
  df_temp_filtered <- filter_toichi df_temp_filtered ;;
  if empty df_temp_filtered then Ok (inl (true, no_non_toichi_message, None, None)) else
  df_temp_filtered <- convert_columns df_temp_filtered numeric_cols_to_convert ;;
  df_filtered <- filter_quantity df_temp_filtered ;;
  if empty df_filtered then Ok (inl (true, no_quantity_message, None, None)) else
  df_filtered <- add_fulfillment df_filtered ;;
  df_filtered <- add_E_K_ratio df_filtered ;;
  Ok (inr df_filtered)
  end.

(** Lines 130-255; the two dates are the two readings of the clock (lines
    147 and 159). *)
Definition sort_and_render (df_filtered : DataFrame)
    (now_filename now_title : datetime) : outcome result :=
  let df_sorted := sort_values df_filtered sort_by sort_ascending in
  output_df <- make_output_df df_sorted ;;
  let output_filename := output_filename_of now_filename in
  let excel_data := render output_df now_title in
  Ok (true, done_message output_filename, Some output_filename, Some excel_data).

Definition try_body (df : DataFrame) (now_filename now_title : datetime)
  : outcome result :=
  x <- select_rows df ;;
  match x with
  | inl returned => Ok returned
  | inr df_filtered => sort_and_render df_filtered now_filename now_title
  end.

(** ** The [except] clauses (lines 257-270) *)

Definition except_clauses (file : ExcelFile) (available_cols : list string)
    (e : exn) : result :=
  match e with
  | FileNotFoundError _ =>
      (false, "指定されたファイルが見つかりません: " ++ file_str file, None, None)
  | EmptyDataError _ =>
      (false, "Excelファイルが空か、データが読み取れませんでした。", None, None)
  | ValueError msg =>
      if str_contains "Worksheet" msg && str_contains "not found" msg
      then (false,
            "Excelファイルの最初のシートの読み込み中にエラーが発生しました。ファイルが破損しているか、形式が正しくない可能性があります。エラー: "
            ++ msg, None, None)
      else (false,
            "Excelファイルの読み込み中にエラーが発生しました (ValueError): " ++ msg,
            None, None)
  | KeyError msg =>
      (false,
       "Excelファイルに必要な列が見つかりません: " ++ msg ++ "。" ++ newline
       ++ "スクリプト内の列名定義と、Excelファイルの最初のシートの2行目のヘッダー名が一致しているか確認してください。" ++ newline
       ++ "読み込まれたExcelヘッダー: " ++ list_str available_cols, None, None)
  | Exception msg =>
      (false, "処理中に予期せぬエラーが発生しました: " ++ msg, None, None)
  end.

(** ** The function *)

Definition create_repacking_priority_list_from_excel
    (file : ExcelFile) (now_filename now_title : datetime) : result :=
  match read_excel file with
  | Raise e => except_clauses file [] e
  | Ok df0 =>
      let df := strip_columns df0 in
      match try_body df now_filename now_title with
      | Ok r => r
      | Raise e => except_clauses file (columns df) e
      end
  end.

End Kowake.

(* ===================================================================== *)
(** * Orders and stable sorting *)
(* ===================================================================== *)

(** A three-way comparison that is a total preorder: what a sort needs of
    its keys. *)
Class TotalCmp {A : Type} (cmp : A -> A -> comparison) : Prop := {
  cmp_refl : forall x, cmp x x = Eq;
  cmp_antisym : forall x y, cmp y x = CompOpp (cmp x y);
  cmp_eq_l : forall x y z, cmp x y = Eq -> cmp x z = cmp y z;
  cmp_lt_trans : forall x y z, cmp x y = Lt -> cmp y z = Lt -> cmp x z = Lt
}.

(** Comparing on one key, then on another where the first ties. *)
Definition lex {A : Type} (c1 c2 : A -> A -> comparison) (x y : A) : comparison :=
  match c1 x y with
  | Eq => c2 x y
  | c => c
  end.

Section StableSortDef.
Context {A : Type} (cmp : A -> A -> comparison).

(** Insertion sort that puts an element in front of the first one it does
    not come after; any stable sort returns the same list. *)
Fixpoint stable_insert (x : A) (l : list A) : list A :=
  match l with
  | [] => [x]
  | y :: l' =>
      match cmp x y with
      | Gt => y :: stable_insert x l'
      | _ => x :: l
      end
  end.

Definition stable_sort (l : list A) : list A := fold_right stable_insert [] l.

(** [x] does not come after [y]. *)
Definition not_after (x y : A) : Prop := cmp x y <> Gt.

(** [x] and [y] have equal keys. *)
Definition tied (x y : A) : bool :=
  match cmp x y with
  | Eq => true
  | _ => false
  end.

End StableSortDef.

Section FloatKey.
Local Open Scope Z_scope.

Definition lex3 : Z * Z * Z -> Z * Z * Z -> comparison :=
  lex (fun a b => fst (fst a) ?= fst (fst b))
      (lex (fun a b => snd (fst a) ?= snd (fst b))
           (fun a b => snd a ?= snd b)).

(** Where a float stands among the floats: its class and sign, then its
    exponent, then its mantissa. NaN is put above everything. *)
Definition sf_key (f : spec_float) : Z * Z * Z :=
  match f with
  | S754_nan => (3, 0, 0)
  | S754_infinity true => (-2, 0, 0)
  | S754_infinity false => (2, 0, 0)
  | S754_zero _ => (0, 0, 0)
  | S754_finite false m e => (1, e, Zpos m)
  | S754_finite true m e => (-1, - e, Zneg m)
  end.

Definition neg3 (k : Z * Z * Z) : Z * Z * Z :=
  (- fst (fst k), - snd (fst k), - snd k).

(** The key [sort_values] orders a column by. *)
Definition ord_key (ascending : bool) (x : float) : Z * Z * Z :=
  let k := sf_key (Prim2SF x) in
  if isna x then k else if ascending then k else neg3 k.

End FloatKey.

(* ===================================================================== *)
(** * What the specification speaks of *)
(* ===================================================================== *)

Section Specification.
Context {lib : Library}.
Local Open Scope string_scope.

(** The six input columns the pipeline needs. *)
Definition required_columns : list string :=
  [ product_code_col_excel; product_name_col_excel; prev_day_stock_col_excel;
    today_received_col_excel; delivery_qty_col_excel; action_needed_col_excel ].

Definition has_required_columns (df : DataFrame) : Prop :=
  forall label, In label required_columns -> In label (columns df).

(** A cell coerced to a number: what does not parse counts as 0. *)
Definition coerce (c : cell) : float := fillna 0 (to_numeric c).

(** The three filters, on a row of the input. *)
Definition contains_diamond (r : Row) : bool :=
  str_contains "◇" (astype_str (r product_name_col_excel)).
Definition ends_in_toichi (r : Row) : bool :=
  endswith "東一" (astype_str (r product_name_col_excel)).
Definition today_is_nonzero (r : Row) : bool :=
  ne (coerce (r today_received_col_excel)) 0.

Definition passes_filters (r : Row) : bool :=
  contains_diamond r && negb (ends_in_toichi r) && today_is_nonzero r.

(** The rows each filter stage leaves, in the order of the input. *)
Definition after_diamond (df : DataFrame) : list Row :=
  filter contains_diamond (rows df).
Definition after_toichi (df : DataFrame) : list Row :=
  filter (fun r => negb (ends_in_toichi r)) (after_diamond df).
Definition kept_rows (df : DataFrame) : list Row :=
  filter today_is_nonzero (after_toichi df).

(** The two derived metrics of section 3, on a row of the input. *)
Definition fulfillment_ratio (r : Row) : float :=
  if ne (coerce (r delivery_qty_col_excel)) 0
  then (coerce (r prev_day_stock_col_excel) / coerce (r delivery_qty_col_excel))%float
  else 0%float.

Definition delivery_to_shortage_ratio (r : Row) : float :=
  if gt (coerce (r action_needed_col_excel)) 0
  then (coerce (r delivery_qty_col_excel) / coerce (r action_needed_col_excel))%float
  else (-1)%float.

(** The 4-key rule of section 4.8. *)
Definition priority_cmp (r1 r2 : Row) : comparison :=
  lex (fun a b => key_cmp true (fulfillment_ratio a) (fulfillment_ratio b))
   (lex (fun a b => key_cmp true (coerce (a action_needed_col_excel))
                                 (coerce (b action_needed_col_excel)))
    (lex (fun a b => key_cmp true (coerce (a prev_day_stock_col_excel))
                                  (coerce (b prev_day_stock_col_excel)))
         (fun a b => key_cmp false (delivery_to_shortage_ratio a)
                                   (delivery_to_shortage_ratio b))))
   r1 r2.

(** The seven values an input row shows in the output, left to right. *)
Definition output_row (r : Row) : list cell :=
  [ r product_code_col_excel;
    r product_name_col_excel;
    Num (coerce (r prev_day_stock_col_excel));
    Num (coerce (r today_received_col_excel));
    Num (coerce (r delivery_qty_col_excel));
    Num (coerce (r action_needed_col_excel));
    Num (fulfillment_ratio r) ].

Definition output_names : list string :=
  ["商品コード"; "商品名"; "昨日残"; "本日作成"; "納品数"; "不足数"; "充足率"].

(** ** Reading a sheet back *)

(** The sheet has a cell on this row. *)
Definition has_row (ws : Worksheet) (row : nat) : bool :=
  existsb (fun kc : nat * nat * Cell => Nat.eqb (fst (fst kc)) row) (cells ws).

(** The values on a row, from column 1 to the last column in use. *)
Definition row_values (ws : Worksheet) (row : nat) : list cell :=
  map (fun col => value (ws_cell ws row col)) (seq 1 (max_column ws)).

Fixpoint rows_from (ws : Worksheet) (fuel row : nat) : list (list cell) :=
  match fuel with
  | O => []
  | S fuel' =>
      if has_row ws row
      then row_values ws row :: rows_from ws fuel' (S row)
      else []
  end.

(** The table under the header of sheet row 2: the rows from row 3 down to
    the first row that holds no cell. *)
Definition table_rows (ws : Worksheet) : list (list cell) :=
  rows_from ws (max_row ws) 3.

(** ** The rows as the pipeline carries them *)

(** Lines 108-110 on one row. *)
Definition convert_row (r : Row) : Row :=
  fold_left (fun r col => update r col (Num (coerce (r col))))
            numeric_cols_to_convert r.

(** Lines 117-127 on one row. *)
Definition with_fulfillment (r : Row) : Row :=
  update r calculated_fulfillment
    (Num (if ne (float64 (r delivery_qty_col_excel)) 0
          then (float64 (r prev_day_stock_col_excel)
                / float64 (r delivery_qty_col_excel))%float
          else 0%float)).

Definition with_E_K_ratio (r : Row) : Row :=
  update r calculated_E_K_ratio
    (Num (if gt (float64 (r action_needed_col_excel)) 0
          then (float64 (r delivery_qty_col_excel)
                / float64 (r action_needed_col_excel))%float
          else (-1)%float)).

Definition derived_row (r : Row) : Row :=
  with_E_K_ratio (with_fulfillment (convert_row r)).

(** Lines 136-143 on one row. *)
Definition project_row (r : Row) : Row :=
  fold_left (fun out lf => update out (fst lf) (r (snd lf)))
            output_columns (fun _ => Blank).

(** The rows kept, in the order of the 4-key rule, and the frame the
    function writes out. *)
Definition sorted_rows (df : DataFrame) : list Row :=
  stable_sort priority_cmp (kept_rows df).

Definition output_frame (df : DataFrame) : DataFrame :=
  {| columns := output_names;
     rows := map (fun r => project_row (derived_row r)) (sorted_rows df) |}.

(** The labels of [df_filtered]: those of the input and the two calculated
    ones. *)
Definition with_label (label : string) (cols : list string) : list string :=
  if str_in label cols then cols else cols ++ [label].

Definition derived_columns (cols : list string) : list string :=
  with_label calculated_E_K_ratio (with_label calculated_fulfillment cols).

(** The early results of lines 95, 99 and 114, and [df_filtered]. *)
Definition selected (df : DataFrame) : result + DataFrame :=
  match after_diamond df with
  | [] => inl (true, no_diamond_message, None, None)
  | _ :: _ =>
      match after_toichi df with
      | [] => inl (true, no_non_toichi_message, None, None)
      | _ :: _ =>
          match kept_rows df with
          | [] => inl (true, no_quantity_message, None, None)
          | _ :: _ =>
              inr {| columns := derived_columns (columns df);
                     rows := map derived_row (kept_rows df) |}
          end
      end
  end.

(** What the function returns on a sheet that has its columns: an early
    result, or the workbook of the rows kept, in priority order. *)
Definition outcome_of (df : DataFrame) (now_filename now_title : datetime) : result :=
  match kept_rows df with
  | [] =>
      match selected df with
      | inl returned => returned
      | inr _ => (true, no_quantity_message, None, None)
      end
  | _ :: _ =>
      (true, done_message (output_filename_of now_filename),
       Some (output_filename_of now_filename),
       Some (render (output_frame df) now_title))
  end.

End Specification.

(* ===================================================================== *)
(** * Restyling a sheet *)
(* ===================================================================== *)

(** [styled ok ws ws']: [ws'] comes from [ws] by assignments to cells inside
    the used range of the sheet, each by a function [ok] accepts, and by
    assignments to row heights and column widths. *)
Inductive styled (ok : (Cell -> Cell) -> Prop) (ws : Worksheet) : Worksheet -> Prop :=
| styled_refl : styled ok ws ws
| styled_modify ws' row col f :
    styled ok ws ws' ->
    row <= max_row ws' -> col <= max_column ws' -> ok f ->
    styled ok ws (modify ws' row col f)
| styled_height ws' row h :
    styled ok ws ws' -> styled ok ws (set_row_height ws' row h)
| styled_width ws' letter w :
    styled ok ws ws' -> styled ok ws (set_column_width ws' letter w).

(** Functions on cells that leave the value alone, and those that leave
    the number format alone as well. *)
Definition keeps_value (f : Cell -> Cell) : Prop :=
  forall x, value (f x) = value x.
Definition keeps_value_and_format (f : Cell -> Cell) : Prop :=
  forall x, value (f x) = value x /\ number_format (f x) = number_format x.

(** A footer cell as lines 241-243 and 249-251 leave it. *)
Definition footer_cell (text : string) : Cell :=
  set_alignment data_row_vertical_alignment (set_value (Text text) default_cell).

(** The cell [F] makes of the label of column [c], if the frame has that
    column. *)
Definition cell_in_row (F : string -> Cell) (cols : list string) (c : nat) : option Cell :=
  if (1 <=? c) && (c <=? List.length cols)
  then option_map F (nth_error cols (c - 1))
  else None.

(* ===================================================================== *)
(** * A sample sheet *)
(* ===================================================================== *)

Section Sample.
Local Open Scope string_scope.

(** A row given by its cells, label by label. *)
Fixpoint row_of (l : list (string * cell)) : Row :=
  fun label =>
    match l with
    | [] => Blank
    | (k, v) :: l' => if String.eqb label k then v else row_of l' label
    end.

(** A library that reads the text 5 as the number 5 and no other text as a
    number. *)
Definition sample_library : Library :=
  {| str_to_float := fun s => if String.eqb s "5" then Some 5%float else None;
     float_to_str := fun _ => "0.0";
     repr_str := fun s => "'" ++ s ++ "'" |}.

(** The header as the sheet has it, blanks included, with a column the
    output does not carry. *)
Definition sample_header : list string :=
  [ " 商品コード"; "商品名 "; "昨日残"; "今日入荷（作成）"; "納品数";
    "集荷便から降ろす数/小分けしないと足りない数"; "箱/こもの" ].

Definition sample_row (code name prev today delivery action : cell) : Row :=
  row_of (combine sample_header [code; name; prev; today; delivery; action; Text "箱"]).

Definition sample_sheet : DataFrame :=
  {| columns := sample_header;
     rows :=
       [ sample_row (Num 1) (Text "◇りんご") (Num 3) (Num 2) (Num 6) (Num 4);
         sample_row (Num 2) (Text "◇東一") (Num 3) (Num 2) (Num 6) (Num 4);
         sample_row (Num 3) (Text "◇東京一") (Num 1) (Text "5") (Num 0) (Num 0);
         sample_row (Num 4) (Text "みかん") (Num 3) (Num 2) (Num 6) (Num 4);
         sample_row (Text "A5") (Text "◇なし") (Text "x") (Num 2) (Num 6) Blank;
         sample_row (Num 6) (Text "◇もも") (Num 3) (Text "abc") (Num 6) (Num 4) ] |}.

Definition sample_file : ExcelFile :=
  {| file_str := "in.xlsx"; read_excel := Ok sample_sheet |}.

(** The same sheet without its product code column. *)
Definition sample_file_no_code : ExcelFile :=
  {| file_str := "in.xlsx";
     read_excel := Ok {| columns := tl sample_header; rows := rows sample_sheet |} |}.

(** A sheet none of whose product names has the mark. *)
Definition sample_file_no_diamond : ExcelFile :=
  {| file_str := "in.xlsx";
     read_excel :=
       Ok {| columns := sample_header;
             rows := [ sample_row (Num 4) (Text "みかん") (Num 3) (Num 2) (Num 6) (Num 4) ] |} |}.

(** Two rows that tie on fulfillment ratio, shortage and previous-day
    stock, the second with the larger delivery-to-shortage ratio. *)
Definition sample_file_tied : ExcelFile :=
  {| file_str := "in.xlsx";
     read_excel :=
       Ok {| columns := sample_header;
             rows := [ sample_row (Text "first") (Text "◇a") (Num 0) (Num 1) (Num 10) (Num 5);
                       sample_row (Text "second") (Text "◇b") (Num 0) (Num 1) (Num 20) (Num 5) ] |} |}.

Definition sample_date : datetime := {| month := 11; day := 6 |}.

End Sample.
(* ===================================================================== *)
(** * Comparisons that order totally *)
(* ===================================================================== *)


Section TotalCmpFacts.
Context {A : Type} (cmp : A -> A -> comparison) {T : TotalCmp cmp}.

Lemma cmp_eq_sym x y : cmp x y = Eq -> cmp y x = Eq.
Proof. intros H. rewrite cmp_antisym, H. reflexivity. Qed.

Lemma cmp_eq_r x y z : cmp y z = Eq -> cmp x y = cmp x z.
Proof.
  intros H. rewrite (cmp_antisym y x), (cmp_antisym z x).
  f_equal. apply cmp_eq_l. apply cmp_eq_sym. apply cmp_eq_sym. exact H.
Qed.

Lemma cmp_gt_lt x y : cmp x y = Gt -> cmp y x = Lt.
Proof. intros H. rewrite cmp_antisym, H. reflexivity. Qed.

Lemma cmp_lt_gt x y : cmp x y = Lt -> cmp y x = Gt.
Proof. intros H. rewrite cmp_antisym, H. reflexivity. Qed.

(** "Not after" is transitive. *)
Lemma cmp_le_trans x y z : cmp x y <> Gt -> cmp y z <> Gt -> cmp x z <> Gt.
Proof.
  intros Hxy Hyz Hxz.
  destruct (cmp x y) eqn:Exy; [ | | congruence ].
  - rewrite (cmp_eq_l _ _ z Exy) in Hxz. congruence.
  - destruct (cmp y z) eqn:Eyz; [ | | congruence ].
    + rewrite <- (cmp_eq_r x _ _ Eyz) in Hxz. congruence.
    + rewrite (cmp_lt_trans _ _ _ Exy Eyz) in Hxz. discriminate.
Qed.

End TotalCmpFacts.

(** Comparing through a key, and comparing on one key then on another,
    keep a comparison total. *)
Lemma TotalCmp_on {A B : Type} (f : A -> B) (cmp : B -> B -> comparison) :
  TotalCmp cmp -> TotalCmp (fun x y => cmp (f x) (f y)).
Proof.
  intros T. split; intros.
  - apply cmp_refl.
  - apply cmp_antisym.
  - now apply cmp_eq_l.
  - eapply cmp_lt_trans; eassumption.
Qed.


Lemma TotalCmp_lex {A : Type} (c1 c2 : A -> A -> comparison) :
  TotalCmp c1 -> TotalCmp c2 -> TotalCmp (lex c1 c2).
Proof.
  intros T1 T2. split; unfold lex.
  - intros x. rewrite (cmp_refl (cmp := c1)). apply cmp_refl.
  - intros x y. rewrite (cmp_antisym (cmp := c1) x y).
    destruct (c1 x y); simpl; auto. apply cmp_antisym.
  - intros x y z H. destruct (c1 x y) eqn:E1; try discriminate.
    rewrite (cmp_eq_l _ _ z E1). destruct (c1 y z); auto.
    now apply cmp_eq_l.
  - intros x y z Hxy Hyz.
    destruct (c1 x y) eqn:E1; try discriminate.
    + rewrite (cmp_eq_l _ _ z E1).
      destruct (c1 y z) eqn:E2; try discriminate; auto.
      eapply cmp_lt_trans; eassumption.
    + destruct (c1 y z) eqn:E2; try discriminate.
      * rewrite <- (cmp_eq_r c1 x _ _ E2), E1. reflexivity.
      * rewrite (cmp_lt_trans _ _ _ E1 E2). reflexivity.
Qed.

Lemma TotalCmp_ext {A : Type} (c c' : A -> A -> comparison) :
  (forall x y, c' x y = c x y) -> TotalCmp c -> TotalCmp c'.
Proof.
  intros E T. split; intros; rewrite ?E in *.
  - apply cmp_refl.
  - apply cmp_antisym.
  - now apply cmp_eq_l.
  - eapply cmp_lt_trans; eassumption.
Qed.

Lemma TotalCmp_Z : TotalCmp Z.compare.
Proof.
  split; intros.
  - apply Z.compare_refl.
  - apply Z.compare_antisym.
  - apply Z.compare_eq in H. now subst.
  - rewrite Z.compare_lt_iff in *. lia.
Qed.

(* ===================================================================== *)
(** * The order of float64 keys *)
(* ===================================================================== *)

Section FloatOrder.
Local Open Scope Z_scope.



Lemma TotalCmp_lex3 : TotalCmp lex3.
Proof.
  unfold lex3. apply TotalCmp_lex.
  - exact (TotalCmp_on _ _ TotalCmp_Z).
  - apply TotalCmp_lex; exact (TotalCmp_on _ _ TotalCmp_Z).
Qed.

Lemma lex3_neg3 k1 k2 : lex3 (neg3 k1) (neg3 k2) = lex3 k2 k1.
Proof.
  destruct k1 as [[a b] c], k2 as [[a' b'] c'].
  unfold lex3, lex, neg3; simpl.
  rewrite !Z.compare_opp. reflexivity.
Qed.

Lemma SFcompare_key f1 f2 :
  f1 <> S754_nan -> f2 <> S754_nan ->
  SFcompare f1 f2 = Some (lex3 (sf_key f1) (sf_key f2)).
Proof.
  intros H1 H2.
  destruct f1 as [s1| s1 | | s1 m1 e1], f2 as [s2 | s2 | | s2 m2 e2];
    try congruence;
    try (destruct s1; try destruct s2; reflexivity);
    try (destruct s2; reflexivity).
  destruct s1, s2; try reflexivity; unfold lex3, lex; simpl.
  rewrite Z.compare_opp, (Z.compare_antisym e1 e2).
  destruct (e1 ?= e2); reflexivity.
Qed.

Lemma SFcompare_nan_l f : SFcompare S754_nan f = None.
Proof. reflexivity. Qed.

Lemma SFcompare_nan_r f : SFcompare f S754_nan = None.
Proof. destruct f; reflexivity. Qed.

Lemma isna_spec x : isna x = true <-> Prim2SF x = S754_nan.
Proof.
  unfold isna. rewrite eqb_spec. unfold SFeqb.
  destruct (Prim2SF x) eqn:E; try (split; [intros; discriminate | intros; discriminate]).
  all: try (split; intros H; [ exfalso | discriminate ]).
  all: try (rewrite SFcompare_key in H by congruence;
            rewrite (cmp_refl (TotalCmp := TotalCmp_lex3)) in H; discriminate).
  split; reflexivity.
Qed.

Lemma isna_false x : isna x = false -> Prim2SF x <> S754_nan.
Proof.
  intros H E. apply isna_spec in E. congruence.
Qed.

Lemma compare_key x y :
  isna x = false -> isna y = false ->
  SFcompare (Prim2SF x) (Prim2SF y)
  = Some (lex3 (sf_key (Prim2SF x)) (sf_key (Prim2SF y))).
Proof. intros Hx Hy. apply SFcompare_key; now apply isna_false. Qed.

Lemma num_cmp_key x y :
  isna x = false -> isna y = false ->
  num_cmp x y = lex3 (sf_key (Prim2SF x)) (sf_key (Prim2SF y)).
Proof.
  intros Hx Hy. unfold num_cmp. rewrite compare_spec, compare_key by assumption.
  destruct (lex3 _ _); reflexivity.
Qed.

Lemma sf_key_class f : f <> S754_nan -> (-2 <= fst (fst (sf_key f)) <= 2).
Proof.
  destruct f as [s | s | | s m e]; try congruence; try destruct s; simpl; lia.
Qed.

Lemma key_cmp_ord ascending x y :
  key_cmp ascending x y = lex3 (ord_key ascending x) (ord_key ascending y).
Proof.
  unfold key_cmp, ord_key.
  destruct (isna x) eqn:Hx, (isna y) eqn:Hy.
  - apply isna_spec in Hx, Hy. rewrite Hx, Hy. reflexivity.
  - apply isna_spec in Hx. rewrite Hx.
    pose proof (sf_key_class _ (isna_false _ Hy)) as K.
    destruct (sf_key (Prim2SF y)) as [[a b] c].
    destruct ascending; unfold lex3, lex, neg3; cbn [fst snd sf_key] in *.
    + destruct (Z.compare_spec (3) (a)); try lia; reflexivity.
    + destruct (Z.compare_spec (3) (- a)); try lia; reflexivity.
  - apply isna_spec in Hy. rewrite Hy.
    pose proof (sf_key_class _ (isna_false _ Hx)) as K.
    destruct (sf_key (Prim2SF x)) as [[a b] c].
    destruct ascending; unfold lex3, lex, neg3; cbn [fst snd sf_key] in *.
    + destruct (Z.compare_spec (a) (3)); try lia; reflexivity.
    + destruct (Z.compare_spec (- a) (3)); try lia; reflexivity.
  - destruct ascending.
    + now apply num_cmp_key.
    + rewrite lex3_neg3. now apply num_cmp_key.
Qed.

Lemma TotalCmp_key_cmp ascending : TotalCmp (key_cmp ascending).
Proof.
  apply (TotalCmp_ext (fun x y => lex3 (ord_key ascending x) (ord_key ascending y))).
  - apply key_cmp_ord.
  - exact (TotalCmp_on _ _ TotalCmp_lex3).
Qed.

(** The comparisons of numpy, read off the three-way comparison. *)
Lemma gt_num_cmp x y : gt x y = true <-> isna x = false /\ isna y = false /\ num_cmp x y = Gt.
Proof.
  unfold gt. rewrite ltb_spec. unfold SFltb.
  destruct (isna x) eqn:Hx.
  { apply isna_spec in Hx. rewrite Hx, SFcompare_nan_r. split; [discriminate | intros (? & _); discriminate]. }
  destruct (isna y) eqn:Hy.
  { apply isna_spec in Hy. rewrite Hy, SFcompare_nan_l. split; [discriminate | intros (_ & ? & _); discriminate]. }
  rewrite (compare_key _ _ Hy Hx), (num_cmp_key _ _ Hx Hy).
  rewrite (cmp_antisym (TotalCmp := TotalCmp_lex3) (sf_key (Prim2SF y)) (sf_key (Prim2SF x))).
  destruct (lex3 (sf_key (Prim2SF y)) (sf_key (Prim2SF x))); simpl; split; try discriminate; auto.
  all: intros (_ & _ & ?); discriminate.
Qed.

Lemma leb_num_cmp x y :
  isna x = false -> isna y = false ->
  (x <=? y)%float = match num_cmp x y with Gt => false | _ => true end.
Proof.
  intros Hx Hy. rewrite leb_spec. unfold SFleb.
  rewrite (compare_key _ _ Hx Hy), (num_cmp_key _ _ Hx Hy).
  destruct (lex3 _ _); reflexivity.
Qed.

Lemma eqb_num_cmp x y :
  isna x = false -> isna y = false ->
  (x =? y)%float = match num_cmp x y with Eq => true | _ => false end.
Proof.
  intros Hx Hy. rewrite eqb_spec. unfold SFeqb.
  rewrite (compare_key _ _ Hx Hy), (num_cmp_key _ _ Hx Hy).
  destruct (lex3 _ _); reflexivity.
Qed.

(** A number is above zero or at most zero, never both. *)
Lemma gt_or_le x y : isna x = false -> isna y = false ->
  gt x y = negb (x <=? y)%float.
Proof.
  intros Hx Hy. rewrite (leb_num_cmp _ _ Hx Hy).
  destruct (gt x y) eqn:G.
  - apply gt_num_cmp in G. destruct G as (_ & _ & ->). reflexivity.
  - destruct (num_cmp x y) eqn:E; try reflexivity.
    assert (gt x y = true) by (apply gt_num_cmp; auto). congruence.
Qed.

Lemma isna_fillna x : isna (fillna 0 x) = false.
Proof.
  unfold fillna. destruct (isna x) eqn:E; [ reflexivity | exact E ].
Qed.

End FloatOrder.

(* ===================================================================== *)
(** * Stable sorting *)
(* ===================================================================== *)

Section StableSort.
Context {A : Type} (cmp : A -> A -> comparison).

Local Abbreviation stable_insert := (stable_insert cmp).
Local Abbreviation stable_sort := (stable_sort cmp).
Local Abbreviation not_after := (not_after cmp).
Local Abbreviation tied := (tied cmp).


Lemma stable_insert_perm x l : Permutation (x :: l) (stable_insert x l).
Proof.
  induction l as [| y l IH]; simpl; [ reflexivity | ].
  destruct (cmp x y); try reflexivity.
  rewrite perm_swap. now apply perm_skip.
Qed.

Lemma stable_sort_perm l : Permutation l (stable_sort l).
Proof.
  induction l as [| x l IH]; simpl; [ constructor | ].
  rewrite <- stable_insert_perm. now apply perm_skip.
Qed.

Lemma stable_sort_length l : List.length (stable_sort l) = List.length l.
Proof. symmetry. apply Permutation_length, stable_sort_perm. Qed.

Lemma stable_sort_nil l : stable_sort l = [] -> l = [].
Proof.
  intros H. apply length_zero_iff_nil. rewrite <- stable_sort_length, H. reflexivity.
Qed.

Context {T : TotalCmp cmp}.

Lemma stable_insert_sorted x l :
  StronglySorted not_after l -> StronglySorted not_after (stable_insert x l).
Proof.
  induction 1 as [| y l Hl IH Hy]; simpl.
  - constructor; constructor.
  - destruct (cmp x y) eqn:E.
    + constructor; [ now constructor | ].
      constructor; [ unfold not_after; congruence | ].
      eapply Forall_impl; [ | exact Hy ].
      intros z Hz. unfold not_after in *. rewrite (cmp_eq_l _ _ z E). exact Hz.
    + constructor; [ now constructor | ].
      constructor; [ unfold not_after; congruence | ].
      eapply Forall_impl; [ | exact Hy ].
      intros z Hz. apply (cmp_le_trans cmp x y z); [ congruence | exact Hz ].
    + constructor; [ exact IH | ].
      apply (Permutation_Forall (stable_insert_perm x l)).
      constructor; [ | exact Hy ].
      unfold not_after. rewrite (cmp_gt_lt cmp _ _ E). discriminate.
Qed.

Lemma stable_sort_sorted l : StronglySorted not_after (stable_sort l).
Proof.
  induction l as [| x l IH]; simpl; [ constructor | ].
  now apply stable_insert_sorted.
Qed.

Lemma stable_insert_stable z x l :
  filter (tied z) (stable_insert x l) = filter (tied z) (x :: l).
Proof.
  induction l as [| y l IH]; [ reflexivity | ].
  cbn [stable_insert]. destruct (cmp x y) eqn:E; try reflexivity.
  cbn [filter] in *. rewrite IH.
  destruct (tied z x) eqn:Hx, (tied z y) eqn:Hy; try reflexivity.
  exfalso. unfold tied in *.
  destruct (cmp z x) eqn:Ex; try discriminate.
  destruct (cmp z y) eqn:Ey; try discriminate.
  rewrite <- (cmp_eq_l _ _ y Ex), Ey in E. discriminate.
Qed.

(** Rows that tie with one another leave the sort in the order they
    entered it. *)
Lemma stable_sort_stable z l : filter (tied z) (stable_sort l) = filter (tied z) l.
Proof.
  induction l as [| x l IH]; [ reflexivity | ].
  cbn [stable_sort fold_right]. rewrite stable_insert_stable.
  cbn [filter]. fold (stable_sort l). rewrite IH. reflexivity.
Qed.

End StableSort.

(** Sorting the images of a list is sorting the list through the map. *)
Lemma stable_sort_map {A B : Type} (f : A -> B) (cmp : B -> B -> comparison) l :
  stable_sort cmp (map f l) = map f (stable_sort (fun x y => cmp (f x) (f y)) l).
Proof.
  induction l as [| x l IH]; [ reflexivity | ].
  cbn [map stable_sort fold_right]. fold (stable_sort cmp (map f l)).
  fold (stable_sort (fun x y => cmp (f x) (f y)) l). rewrite IH.
  generalize (stable_sort (fun x y => cmp (f x) (f y)) l). clear.
  induction l as [| y l IH]; [ reflexivity | ].
  cbn [map stable_insert]. destruct (cmp (f x) (f y)); try reflexivity.
  cbn [map]. now rewrite IH.
Qed.

Lemma stable_sort_ext {A : Type} (c c' : A -> A -> comparison) l :
  (forall x y, c x y = c' x y) -> stable_sort c l = stable_sort c' l.
Proof.
  intros E. induction l as [| x l IH]; [ reflexivity | ].
  cbn [stable_sort fold_right]. fold (stable_sort c l). fold (stable_sort c' l).
  rewrite IH. generalize (stable_sort c' l). clear - E.
  induction l as [| y l IH]; [ reflexivity | ].
  cbn [stable_insert]. rewrite E, IH. reflexivity.
Qed.

Section SortValues.
Context {lib : Library}.

Lemma TotalCmp_row_cmp by_ : TotalCmp (row_cmp by_).
Proof.
  induction by_ as [| [label ascending] by_ IH].
  - split; intros; try reflexivity; discriminate.
  - apply (TotalCmp_ext
             (lex (fun r1 r2 => key_cmp ascending (float64 (r1 label)) (float64 (r2 label)))
                  (row_cmp by_))).
    + intros r1 r2. unfold lex. cbn [row_cmp].
      destruct (key_cmp _ _ _); reflexivity.
    + apply TotalCmp_lex; [ | exact IH ].
      exact (TotalCmp_on (fun r : Row => float64 (r label)) _ (TotalCmp_key_cmp ascending)).
Qed.

Lemma sort_rows_stable_sort by_ l : sort_rows by_ l = stable_sort (row_cmp by_) l.
Proof.
  induction l as [| r l IH]; [ reflexivity | ].
  cbn [sort_rows stable_sort fold_right]. fold (sort_rows by_ l). fold (stable_sort (row_cmp by_) l).
  rewrite IH. generalize (stable_sort (row_cmp by_) l). clear.
  induction l as [| y l IH]; [ reflexivity | ].
  cbn [insert_row stable_insert]. unfold row_leb. rewrite IH.
  destruct (row_cmp by_ r y); reflexivity.
Qed.

End SortValues.

(* ===================================================================== *)
(** * Facts on strings *)
(* ===================================================================== *)

Section StringFacts.
Local Open Scope string_scope.

Lemma startswith_refl p : startswith p p = true.
Proof.
  induction p as [| a p IH]; [ reflexivity | ].
  cbn [startswith]. rewrite Ascii.eqb_refl. exact IH.
Qed.

Lemma startswith_app p s t : startswith p s = true -> startswith p (s ++ t) = true.
Proof.
  revert s. induction p as [| a p IH]; intros s H; [ reflexivity | ].
  destruct s as [| b s]; [ discriminate | ].
  cbn [startswith append] in *. apply andb_true_iff in H. destruct H as [H1 H2].
  rewrite H1. cbn [andb]. now apply IH.
Qed.

Lemma str_contains_refl p : str_contains p p = true.
Proof.
  destruct p; cbn [str_contains]; rewrite startswith_refl; reflexivity.
Qed.

Lemma str_contains_cons p a s :
  str_contains p s = true -> str_contains p (String a s) = true.
Proof.
  intros H. cbn [str_contains]. rewrite H. apply orb_true_r.
Qed.

(** A substring of a part is a substring of the whole. *)
Lemma str_contains_app_l p s t :
  str_contains p s = true -> str_contains p (t ++ s) = true.
Proof.
  intros H. induction t as [| a t IH]; [ exact H | ].
  cbn [append]. now apply str_contains_cons.
Qed.

Lemma str_contains_app_r p s t :
  str_contains p s = true -> str_contains p (s ++ t) = true.
Proof.
  induction s as [| a s IH]; intros H.
  - cbn [str_contains] in H. rewrite orb_false_r in H.
    destruct p; [ destruct t; reflexivity | discriminate ].
  - cbn [str_contains] in H. apply orb_true_iff in H. destruct H as [H | H].
    + change (String a s ++ t) with (String a (s ++ t)).
      cbn [str_contains].
      change (String a (s ++ t)) with (String a s ++ t).
      rewrite (startswith_app _ _ t H). reflexivity.
    + cbn [append]. apply str_contains_cons. now apply IH.
Qed.

Lemma str_contains_trans p q s :
  str_contains p q = true -> str_contains q s = true -> str_contains p s = true.
Proof.
  intros Hpq. induction s as [| a s IH]; intros H.
  - cbn [str_contains] in H. rewrite orb_false_r in H.
    destruct q; [ | discriminate ].
    cbn [str_contains] in Hpq. rewrite orb_false_r in Hpq.
    destruct p; [ reflexivity | discriminate ].
  - cbn [str_contains] in H. apply orb_true_iff in H. destruct H as [H | H].
    + clear IH. revert H. generalize (String a s). clear a s.
      intros s H.
      assert (exists t, s = q ++ t) as [t ->].
      { clear Hpq. revert s H. induction q as [| b q IH]; intros s H.
        - now exists s.
        - destruct s as [| c s]; [ discriminate | ].
          cbn [startswith] in H. apply andb_true_iff in H. destruct H as [H1 H2].
          apply Ascii.eqb_eq in H1. subst c.
          destruct (IH _ H2) as [t ->]. now exists t. }
      now apply str_contains_app_r.
    + apply str_contains_cons. now apply IH.
Qed.

Lemma str_contains_join x sep l :
  In x l -> str_contains x (join sep l) = true.
Proof.
  induction l as [| y l IH]; [ intros [] | ].
  intros [-> | H].
  - destruct l as [| z l]; cbn [join].
    + apply str_contains_refl.
    + apply str_contains_app_r, str_contains_refl.
  - destruct l as [| z l]; [ destruct H | ].
    cbn [join]. apply str_contains_app_l, str_contains_app_l. now apply IH.
Qed.

Lemma str_in_In x l : str_in x l = true <-> In x l.
Proof.
  unfold str_in. rewrite existsb_exists. split.
  - intros (y & Hy & E). apply String.eqb_eq in E. now subst.
  - intros H. exists x. split; [ exact H | apply String.eqb_refl ].
Qed.

Lemma str_in_not_In x l : str_in x l = false <-> ~ In x l.
Proof.
  rewrite <- str_in_In. destruct (str_in x l); split; congruence.
Qed.

End StringFacts.

(* ===================================================================== *)
(** * Facts on frames *)
(* ===================================================================== *)

Section FrameFacts.
Context {lib : Library}.
Local Open Scope string_scope.

Lemma combine_map_map {A B C : Type} (f : A -> B) (g : A -> C) l :
  combine (map f l) (map g l) = map (fun x => (f x, g x)) l.
Proof.
  induction l as [| x l IH]; [ reflexivity | ]. cbn [map combine]. now rewrite IH.
Qed.

Lemma combine_map_r {A C : Type} (g : A -> C) (l : list A) :
  combine l (map g l) = map (fun x => (x, g x)) l.
Proof.
  rewrite <- (map_id l) at 1. apply combine_map_map.
Qed.

Lemma filter_map_swap {A B : Type} (f : A -> B) (p : B -> bool) l :
  filter p (map f l) = map f (filter (fun x => p (f x)) l).
Proof.
  induction l as [| x l IH]; [ reflexivity | ].
  cbn [map filter]. destruct (p (f x)); cbn [map]; now rewrite IH.
Qed.

Lemma filter_filter {A : Type} (p q : A -> bool) l :
  filter q (filter p l) = filter (fun x => p x && q x) l.
Proof.
  induction l as [| x l IH]; [ reflexivity | ].
  cbn [filter]. destruct (p x); cbn [filter andb]; [ | exact IH ].
  destruct (q x); now rewrite IH.
Qed.

Lemma getitem_present cols R label :
  In label cols ->
  getitem {| columns := cols; rows := R |} label = Ok (map (fun r => r label) R).
Proof.
  intros H. unfold getitem. cbn [columns rows]. apply str_in_In in H. now rewrite H.
Qed.

Lemma getitem_absent cols R label :
  ~ In label cols ->
  getitem {| columns := cols; rows := R |} label = Raise (KeyError (repr_str label)).
Proof.
  intros H. unfold getitem. cbn [columns rows]. apply str_in_not_In in H. now rewrite H.
Qed.

(** A mask computed from a column keeps the rows that satisfy the test. *)
Lemma getitem_mask_column cols R label (p : cell -> bool) :
  getitem_mask {| columns := cols; rows := R |} (map p (map (fun r => r label) R))
  = {| columns := cols; rows := filter (fun r => p (r label)) R |}.
Proof.
  unfold getitem_mask. cbn [columns rows]. f_equal. rewrite map_map, combine_map_r.
  induction R as [| r l IH]; [ reflexivity | ].
  cbn [map filter snd]. destruct (p (r label)); cbn [map fst]; now rewrite IH.
Qed.

(** A column computed row by row, stored under a label the frame has. *)
Lemma setitem_column cols R label (g : Row -> cell) :
  In label cols ->
  setitem {| columns := cols; rows := R |} label (map g R)
  = {| columns := cols; rows := map (fun r => update r label (g r)) R |}.
Proof.
  intros H. unfold setitem. cbn [columns rows].
  rewrite (proj2 (str_in_In _ _) H).
  destruct cols as [| c cs]; [ destruct H | ].
  f_equal. rewrite combine_map_r, map_map. reflexivity.
Qed.

(** The same, under a label that may be new. *)
Lemma setitem_column_any cols R label (g : Row -> cell) :
  cols <> [] ->
  setitem {| columns := cols; rows := R |} label (map g R)
  = {| columns := with_label label cols;
       rows := map (fun r => update r label (g r)) R |}.
Proof.
  intros H. unfold setitem, with_label. cbn [columns rows].
  destruct cols as [| c cs]; [ congruence | ].
  f_equal. rewrite combine_map_r, map_map. reflexivity.
Qed.

Lemma In_with_label x label cols : In x cols -> In x (with_label label cols).
Proof.
  intros H. unfold with_label. destruct (str_in label cols); [ exact H | ].
  apply in_or_app. now left.
Qed.

Lemma In_with_label_self label cols : In label (with_label label cols).
Proof.
  unfold with_label. destruct (str_in label cols) eqn:E.
  - now apply str_in_In.
  - apply in_or_app. right. now left.
Qed.

Lemma convert_column_present cols R col :
  In col cols ->
  convert_column {| columns := cols; rows := R |} col
  = Ok {| columns := cols;
          rows := map (fun r => update r col (Num (coerce (r col)))) R |}.
Proof.
  intros H. unfold convert_column. cbn [columns].
  rewrite (proj2 (str_in_In _ _) H), (getitem_present _ _ _ H).
  cbn [bind]. f_equal. rewrite map_map.
  exact (setitem_column cols R col (fun r => Num (coerce (r col))) H).
Qed.

(** The required labels, one by one. *)
Lemma required_present df :
  has_required_columns df ->
  In product_code_col_excel (columns df) /\
  In product_name_col_excel (columns df) /\
  In prev_day_stock_col_excel (columns df) /\
  In today_received_col_excel (columns df) /\
  In delivery_qty_col_excel (columns df) /\
  In action_needed_col_excel (columns df).
Proof.
  intros H. repeat split; apply H; unfold required_columns; cbn [In]; tauto.
Qed.

Lemma convert_columns_present cols R :
  has_required_columns {| columns := cols; rows := R |} ->
  convert_columns {| columns := cols; rows := R |} numeric_cols_to_convert
  = Ok {| columns := cols; rows := map convert_row R |}.
Proof.
  intros H. apply required_present in H. cbn [columns] in H.
  destruct H as (_ & _ & Hp & Ht & Hd & Ha).
  unfold numeric_cols_to_convert. cbn [convert_columns].
  rewrite (convert_column_present _ _ _ Hp). cbn [bind].
  rewrite (convert_column_present _ _ _ Ht). cbn [bind].
  rewrite (convert_column_present _ _ _ Hd). cbn [bind].
  rewrite (convert_column_present _ _ _ Ha). cbn [bind].
  rewrite !map_map. reflexivity.
Qed.

Lemma missing_none df :
  has_required_columns df -> missing_excel_cols df = [].
Proof.
  intros H. unfold missing_excel_cols, required_input_cols_map.
  cbn [filter snd].
  rewrite !(proj2 (str_in_In _ _)) by (apply H; unfold required_columns; cbn [In]; tauto).
  reflexivity.
Qed.

Lemma missing_some df :
  ~ has_required_columns df -> missing_excel_cols df <> [].
Proof.
  intros H E. apply H. clear H. intros label Hl.
  unfold missing_excel_cols, required_input_cols_map in E.
  cbn [filter snd] in E.
  unfold required_columns in Hl. cbn [In] in Hl.
  repeat match type of E with
  | context [str_in ?x ?l] =>
      let F := fresh "F" in
      destruct (str_in x l) eqn:F; cbn [negb map] in E; [ apply str_in_In in F | discriminate E ]
  end.
  intuition (subst; assumption).
Qed.

End FrameFacts.

(* ===================================================================== *)
(** * The pipeline, stage by stage *)
(* ===================================================================== *)

Section PipelineFacts.
Context {lib : Library}.
Local Open Scope string_scope.

Lemma kept_rows_filter df : kept_rows df = filter passes_filters (rows df).
Proof.
  unfold kept_rows, after_toichi, after_diamond, passes_filters.
  rewrite !filter_filter. apply filter_ext. intros r. apply andb_assoc.
Qed.

(** What the numeric columns hold once converted. *)
Lemma convert_row_prev r :
  convert_row r prev_day_stock_col_excel = Num (coerce (r prev_day_stock_col_excel)).
Proof. reflexivity. Qed.
Lemma convert_row_today r :
  convert_row r today_received_col_excel = Num (coerce (r today_received_col_excel)).
Proof. reflexivity. Qed.
Lemma convert_row_delivery r :
  convert_row r delivery_qty_col_excel = Num (coerce (r delivery_qty_col_excel)).
Proof. reflexivity. Qed.
Lemma convert_row_action r :
  convert_row r action_needed_col_excel = Num (coerce (r action_needed_col_excel)).
Proof. reflexivity. Qed.
Lemma convert_row_code r :
  convert_row r product_code_col_excel = r product_code_col_excel.
Proof. reflexivity. Qed.
Lemma convert_row_name r :
  convert_row r product_name_col_excel = r product_name_col_excel.
Proof. reflexivity. Qed.


Lemma filter_diamond_present cols R :
  In product_name_col_excel cols ->
  filter_diamond {| columns := cols; rows := R |}
  = Ok {| columns := cols; rows := filter contains_diamond R |}.
Proof.
  intros H. unfold filter_diamond. rewrite (getitem_present _ _ _ H). cbn [bind].
  rewrite getitem_mask_column. reflexivity.
Qed.

Lemma filter_toichi_present cols R :
  In product_name_col_excel cols ->
  filter_toichi {| columns := cols; rows := R |}
  = Ok {| columns := cols; rows := filter (fun r => negb (ends_in_toichi r)) R |}.
Proof.
  intros H. unfold filter_toichi. rewrite (getitem_present _ _ _ H). cbn [bind].
  rewrite getitem_mask_column. reflexivity.
Qed.

Lemma filter_quantity_converted cols l :
  In today_received_col_excel cols ->
  filter_quantity {| columns := cols; rows := map convert_row l |}
  = Ok {| columns := cols; rows := map convert_row (filter today_is_nonzero l) |}.
Proof.
  intros H. unfold filter_quantity. rewrite (getitem_present _ _ _ H). cbn [bind].
  unfold nonzero. rewrite getitem_mask_column, filter_map_swap. reflexivity.
Qed.

Lemma add_fulfillment_present cols R :
  In delivery_qty_col_excel cols -> In prev_day_stock_col_excel cols ->
  add_fulfillment {| columns := cols; rows := R |}
  = Ok {| columns := with_label calculated_fulfillment cols;
          rows := map with_fulfillment R |}.
Proof.
  intros Hd Hp. unfold add_fulfillment.
  rewrite (getitem_present _ _ _ Hd), (getitem_present _ _ _ Hp). cbn [bind].
  unfold nonzero, np_where, series_div. rewrite !map_map.
  rewrite combine_map_map, map_map, combine_map_map, !map_map. cbn [fst snd].
  f_equal.
  apply (setitem_column_any cols R calculated_fulfillment
           (fun r => Num (if ne (float64 (r delivery_qty_col_excel)) 0
                          then (float64 (r prev_day_stock_col_excel)
                                / float64 (r delivery_qty_col_excel))%float
                          else 0%float))).
  destruct cols; [ destruct Hd | discriminate ].
Qed.

Lemma add_E_K_ratio_present cols R :
  In action_needed_col_excel cols -> In delivery_qty_col_excel cols ->
  add_E_K_ratio {| columns := cols; rows := R |}
  = Ok {| columns := with_label calculated_E_K_ratio cols;
          rows := map with_E_K_ratio R |}.
Proof.
  intros Ha Hd. unfold add_E_K_ratio.
  rewrite (getitem_present _ _ _ Ha), (getitem_present _ _ _ Hd). cbn [bind].
  unfold positive, np_where, series_div. rewrite !map_map.
  rewrite combine_map_map, map_map, combine_map_map, !map_map. cbn [fst snd].
  f_equal.
  apply (setitem_column_any cols R calculated_E_K_ratio
           (fun r => Num (if gt (float64 (r action_needed_col_excel)) 0
                          then (float64 (r delivery_qty_col_excel)
                                / float64 (r action_needed_col_excel))%float
                          else (-1)%float))).
  destruct cols; [ destruct Hd | discriminate ].
Qed.

Lemma select_rows_present df :
  has_required_columns df -> select_rows df = Ok (selected df).
Proof.
  intros H. unfold select_rows, selected.
  rewrite (missing_none _ H).
  pose proof (required_present _ H) as (Hc & Hn & Hp & Ht & Hd & Ha).
  unfold kept_rows, after_toichi, after_diamond.
  destruct df as [cols R]. cbn [columns rows] in *.
  rewrite (filter_diamond_present _ _ Hn). cbn [bind].
  assert (exists c cs, cols = c :: cs) as (c & cs & Ecols)
    by (destruct cols as [| c cs]; [ destruct Hn | eauto ]).
  destruct (filter contains_diamond R) as [| r1 l1] eqn:E1; [ reflexivity | ].
  replace (empty {| columns := cols; rows := r1 :: l1 |}) with false
    by (rewrite Ecols; reflexivity).
  rewrite <- E1. clear E1 r1 l1.
  rewrite (filter_toichi_present _ _ Hn). cbn [bind].
  destruct (filter (fun r => negb (ends_in_toichi r)) (filter contains_diamond R))
    as [| r2 l2] eqn:E2; [ reflexivity | ].
  replace (empty {| columns := cols; rows := r2 :: l2 |}) with false
    by (rewrite Ecols; reflexivity).
  rewrite <- E2. clear E2 r2 l2.
  set (l2 := filter (fun r => negb (ends_in_toichi r)) (filter contains_diamond R)).
  rewrite convert_columns_present by exact H. cbn [bind].
  rewrite (filter_quantity_converted _ _ Ht). cbn [bind].
  destruct (filter today_is_nonzero l2) as [| r3 l3] eqn:E3; [ reflexivity | ].
  replace (empty {| columns := cols; rows := map convert_row (r3 :: l3) |})
    with false by (rewrite Ecols; reflexivity).
  rewrite <- E3. clear E3 r3 l3.
  rewrite (add_fulfillment_present _ _ Hd Hp). cbn [bind].
  rewrite (add_E_K_ratio_present _ _ (In_with_label _ _ _ Ha) (In_with_label _ _ _ Hd)).
  cbn [bind]. rewrite !map_map. reflexivity.
Qed.

(** What the calculated columns hold. *)
Lemma derived_row_fulfillment r :
  derived_row r calculated_fulfillment = Num (fulfillment_ratio r).
Proof. reflexivity. Qed.
Lemma derived_row_E_K_ratio r :
  derived_row r calculated_E_K_ratio = Num (delivery_to_shortage_ratio r).
Proof. reflexivity. Qed.
Lemma derived_row_action r :
  derived_row r action_needed_col_excel = Num (coerce (r action_needed_col_excel)).
Proof. reflexivity. Qed.
Lemma derived_row_prev r :
  derived_row r prev_day_stock_col_excel = Num (coerce (r prev_day_stock_col_excel)).
Proof. reflexivity. Qed.
Lemma derived_row_delivery r :
  derived_row r delivery_qty_col_excel = Num (coerce (r delivery_qty_col_excel)).
Proof. reflexivity. Qed.

(** The comparison [sort_values] makes on the derived rows is the 4-key
    rule on the rows they come from. *)
Lemma row_cmp_derived a b :
  row_cmp (combine sort_by sort_ascending) (derived_row a) (derived_row b)
  = priority_cmp a b.
Proof.
  unfold sort_by, sort_ascending. cbn [combine row_cmp].
  rewrite !derived_row_fulfillment, !derived_row_E_K_ratio,
          !derived_row_action, !derived_row_prev.
  unfold priority_cmp, lex. cbn [float64].
  destruct (key_cmp true (fulfillment_ratio a) (fulfillment_ratio b)); try reflexivity.
  destruct (key_cmp true (coerce (a action_needed_col_excel))
                         (coerce (b action_needed_col_excel))); try reflexivity.
  destruct (key_cmp true (coerce (a prev_day_stock_col_excel))
                         (coerce (b prev_day_stock_col_excel))); try reflexivity.
  destruct (key_cmp false (delivery_to_shortage_ratio a)
                          (delivery_to_shortage_ratio b)); reflexivity.
Qed.

Lemma TotalCmp_priority : TotalCmp priority_cmp.
Proof.
  apply (TotalCmp_ext
           (fun a b => row_cmp (combine sort_by sort_ascending)
                               (derived_row a) (derived_row b))).
  - intros a b. symmetry. apply row_cmp_derived.
  - exact (TotalCmp_on derived_row _ (TotalCmp_row_cmp _)).
Qed.

Lemma sort_values_derived cols l :
  sort_values {| columns := cols; rows := map derived_row l |} sort_by sort_ascending
  = {| columns := cols; rows := map derived_row (stable_sort priority_cmp l) |}.
Proof.
  unfold sort_values. cbn [columns rows]. f_equal.
  rewrite sort_rows_stable_sort, stable_sort_map. f_equal.
  apply stable_sort_ext. intros a b. apply row_cmp_derived.
Qed.

Lemma with_label_nonempty label cols : with_label label cols <> [].
Proof.
  unfold with_label. destruct (str_in label cols) eqn:E.
  - destruct cols; [ discriminate E | discriminate ].
  - destruct cols; discriminate.
Qed.

Lemma setitem_zip cols (g : Row -> Row) (h : Row -> cell) R label :
  cols <> [] ->
  setitem {| columns := cols; rows := map g R |} label (map h R)
  = {| columns := with_label label cols;
       rows := map (fun r => update (g r) label (h r)) R |}.
Proof.
  intros H. unfold setitem, with_label. cbn [columns rows].
  destruct cols as [| c cs]; [ congruence | ].
  f_equal. rewrite combine_map_map, map_map. reflexivity.
Qed.

Lemma assign_columns_present specs : forall cols_out (g : Row -> Row) src_cols R,
  (forall lf, In lf specs -> In (snd lf) src_cols) ->
  cols_out <> [] ->
  assign_columns {| columns := cols_out; rows := map g R |}
                 {| columns := src_cols; rows := R |} specs
  = Ok {| columns := fold_left (fun c lf => with_label (fst lf) c) specs cols_out;
          rows := map (fun r => fold_left
                                  (fun out lf => update out (fst lf) (r (snd lf)))
                                  specs (g r)) R |}.
Proof.
  induction specs as [| [label from] specs IH]; intros cols_out g src_cols R Hin Hne.
  - reflexivity.
  - cbn [assign_columns].
    rewrite (getitem_present _ _ _ (Hin _ (or_introl eq_refl))). cbn [bind].
    rewrite (setitem_zip _ _ (fun r => r from) _ _ Hne).
    rewrite (IH _ (fun r => update (g r) label (r from)) src_cols R).
    + reflexivity.
    + intros lf H. apply Hin. now right.
    + apply with_label_nonempty.
Qed.

Lemma setitem_new label (h : Row -> cell) R :
  setitem DataFrame_new label (map h R)
  = {| columns := [label];
       rows := map (fun r => update (fun _ => Blank) label (h r)) R |}.
Proof.
  unfold setitem, DataFrame_new. cbn [columns rows]. now rewrite map_map.
Qed.

Lemma assign_columns_cons out src label from cols :
  assign_columns out src ((label, from) :: cols)
  = bind (getitem src from) (fun s => assign_columns (setitem out label s) src cols).
Proof. reflexivity. Qed.

Lemma make_output_df_present cols R :
  has_required_columns {| columns := cols; rows := R |} ->
  In calculated_fulfillment cols ->
  make_output_df {| columns := cols; rows := R |}
  = Ok {| columns := output_names; rows := map project_row R |}.
Proof.
  intros H Hf. apply required_present in H. cbn [columns] in H.
  destruct H as (Hc & Hn & Hp & Ht & Hd & Ha).
  unfold make_output_df, output_columns.
  rewrite assign_columns_cons, (getitem_present _ _ _ Hc). cbn [bind].
  rewrite setitem_new.
  rewrite assign_columns_present.
  - reflexivity.
  - intros lf Hlf. cbn [In] in Hlf.
    repeat (destruct Hlf as [<- | Hlf]; [ assumption | ]). destruct Hlf.
  - discriminate.
Qed.


Lemma selected_kept df :
  kept_rows df <> [] ->
  selected df = inr {| columns := derived_columns (columns df);
                       rows := map derived_row (kept_rows df) |}.
Proof.
  intros H. unfold selected.
  destruct (after_diamond df) as [| r1 l1] eqn:E1.
  { exfalso. apply H. unfold kept_rows, after_toichi. now rewrite E1. }
  destruct (after_toichi df) as [| r2 l2] eqn:E2.
  { exfalso. apply H. unfold kept_rows. now rewrite E2. }
  destruct (kept_rows df); [ congruence | reflexivity ].
Qed.

Lemma selected_none df :
  kept_rows df = [] -> exists msg, selected df = inl (true, msg, None, None).
Proof.
  intros H. unfold selected. rewrite H.
  destruct (after_diamond df); [ eauto | ].
  destruct (after_toichi df); eauto.
Qed.

Lemma try_body_present df now_filename now_title :
  has_required_columns df ->
  try_body df now_filename now_title = Ok (outcome_of df now_filename now_title).
Proof.
  intros H. unfold try_body, outcome_of.
  rewrite (select_rows_present _ H). cbn [bind].
  destruct (kept_rows df) as [| r l] eqn:E.
  - destruct (selected_none _ E) as [msg ->]. reflexivity.
  - rewrite selected_kept by congruence. rewrite E.
    unfold sort_and_render. rewrite sort_values_derived.
    rewrite make_output_df_present.
    + cbn [bind]. unfold output_frame, sorted_rows. rewrite E, map_map. reflexivity.
    + intros label Hl. cbn [columns]. unfold derived_columns.
      apply In_with_label, In_with_label. now apply H.
    + unfold derived_columns. apply In_with_label, In_with_label_self.
Qed.

End PipelineFacts.

(* ===================================================================== *)
(** * Facts on sheets *)
(* ===================================================================== *)

Section SheetFacts.

Lemma same_key_eq k1 k2 : same_key k1 k2 = true <-> k1 = k2.
Proof.
  destruct k1 as [r1 c1], k2 as [r2 c2]. unfold same_key. cbn [fst snd].
  rewrite andb_true_iff, !Nat.eqb_eq. split.
  - intros [-> ->]. reflexivity.
  - intros E. inversion E. auto.
Qed.

Lemma same_key_refl k : same_key k k = true.
Proof. now apply same_key_eq. Qed.

Lemma lookup_app k l1 l2 :
  lookup k (l1 ++ l2)
  = match lookup k l1 with
    | Some c => Some c
    | None => lookup k l2
    end.
Proof.
  induction l1 as [| [k' c] l1 IH]; [ reflexivity | ].
  cbn [app lookup]. destruct (same_key k k'); [ reflexivity | exact IH ].
Qed.

(** A coordinate holds a cell exactly when it is a key of the sheet. *)
Lemma lookup_keys k m : lookup k m <> None <-> In k (map fst m).
Proof.
  induction m as [| [k' c] m IH]; cbn [lookup map In fst].
  - split; [ congruence | intros [] ].
  - destruct (same_key k k') eqn:E.
    + apply same_key_eq in E. subst. split; [ now left | discriminate ].
    + rewrite IH. split; [ now right | ].
      intros [-> | H]; [ | exact H ].
      rewrite same_key_refl in E. discriminate.
Qed.

Lemma has_row_spec ws row :
  has_row ws row = true <-> exists col, lookup (row, col) (cells ws) <> None.
Proof.
  unfold has_row. rewrite existsb_exists. split.
  - intros ([[r c] x] & Hin & E). cbn [fst] in E. apply Nat.eqb_eq in E. subst r.
    exists c. apply lookup_keys. apply (in_map fst) in Hin. exact Hin.
  - intros (c & H). apply lookup_keys, in_map_iff in H.
    destruct H as ([[r c'] x] & E & Hin). cbn [fst] in E. inversion E; subst.
    exists ((row, c), x). split; [ exact Hin | apply Nat.eqb_refl ].
Qed.

Lemma has_row_false ws row :
  (forall col, lookup (row, col) (cells ws) = None) -> has_row ws row = false.
Proof.
  intros H. destruct (has_row ws row) eqn:E; [ | reflexivity ].
  apply has_row_spec in E. destruct E as (c & Hc). now rewrite H in Hc.
Qed.

Lemma fold_max_bound {A : Type} (f : A -> nat) (l : list A) M :
  1 <= M -> (forall x, In x l -> f x <= M) ->
  fold_right (fun x m => Nat.max (f x) m) 1 l <= M.
Proof.
  intros H1 H. induction l as [| x l IH]; cbn [fold_right]; [ exact H1 | ].
  apply Nat.max_lub; [ apply H; now left | apply IH; intros; apply H; now right ].
Qed.

Lemma fold_max_reach {A : Type} (f : A -> nat) (l : list A) x :
  In x l -> f x <= fold_right (fun x m => Nat.max (f x) m) 1 l.
Proof.
  induction l as [| y l IH]; [ intros [] | ].
  cbn [fold_right]. intros [-> | H]; [ apply Nat.le_max_l | ].
  etransitivity; [ now apply IH | apply Nat.le_max_r ].
Qed.

(** The last row in use, read off the cells. *)
Lemma max_row_spec ws M :
  (exists col, lookup (M, col) (cells ws) <> None) ->
  (forall row col, lookup (row, col) (cells ws) <> None -> row <= M) ->
  1 <= M ->
  max_row ws = M.
Proof.
  intros (c & Hc) Hle H1. unfold max_row. apply Nat.le_antisymm.
  - apply (fold_max_bound (fun kc : nat * nat * Cell => fst (fst kc))); [ exact H1 | ].
    intros [[r c'] x] Hin. cbn [fst]. apply (Hle r c').
    apply lookup_keys. apply (in_map fst) in Hin. exact Hin.
  - apply lookup_keys, in_map_iff in Hc. destruct Hc as ([k x] & E & Hin).
    cbn [fst] in E. subst k.
    exact (fold_max_reach (fun kc : nat * nat * Cell => fst (fst kc)) _ _ Hin).
Qed.

Lemma max_column_spec ws M :
  (exists row, lookup (row, M) (cells ws) <> None) ->
  (forall row col, lookup (row, col) (cells ws) <> None -> col <= M) ->
  1 <= M ->
  max_column ws = M.
Proof.
  intros (r & Hr) Hle H1. unfold max_column. apply Nat.le_antisymm.
  - apply (fold_max_bound (fun kc : nat * nat * Cell => snd (fst kc))); [ exact H1 | ].
    intros [[r' c] x] Hin. cbn [fst snd]. apply (Hle r' c).
    apply lookup_keys. apply (in_map fst) in Hin. exact Hin.
  - apply lookup_keys, in_map_iff in Hr. destruct Hr as ([k x] & E & Hin).
    cbn [fst] in E. subst k.
    exact (fold_max_reach (fun kc : nat * nat * Cell => snd (fst kc)) _ _ Hin).
Qed.

(** ** One assignment, and a run of them *)

Lemma lookup_modify ws row col f k :
  lookup k (cells (modify ws row col f))
  = if same_key k (row, col) then Some (f (ws_cell ws row col))
    else lookup k (cells ws).
Proof. reflexivity. Qed.

Lemma ws_cell_modify ws row col f r c :
  ws_cell (modify ws row col f) r c
  = if same_key (r, c) (row, col) then f (ws_cell ws row col) else ws_cell ws r c.
Proof.
  unfold ws_cell at 1. rewrite lookup_modify.
  destruct (same_key (r, c) (row, col)); reflexivity.
Qed.

(** The cells of one row, each assigned once. *)
Lemma lookup_modify_row (g : nat -> Cell -> Cell) row : forall cs ws r c,
  NoDup cs ->
  lookup (r, c) (cells (fold_left (fun w col => modify w row col (g col)) cs ws))
  = if Nat.eqb r row && existsb (Nat.eqb c) cs
    then Some (g c (ws_cell ws row c))
    else lookup (r, c) (cells ws).
Proof.
  induction cs as [| c0 cs IH]; intros ws r c Hnd.
  - cbn [fold_left existsb]. rewrite andb_false_r. reflexivity.
  - inversion Hnd as [| ? ? Hnot Hnd']; subst.
    cbn [fold_left existsb]. rewrite (IH _ _ _ Hnd').
    rewrite lookup_modify, ws_cell_modify. unfold same_key. cbn [fst snd].
    rewrite Nat.eqb_refl. cbn [andb].
    destruct (Nat.eqb r row) eqn:Er; cbn [andb]; [ | reflexivity ].
    apply Nat.eqb_eq in Er. subst r.
    destruct (Nat.eqb c c0) eqn:Ec; cbn [orb].
    + apply Nat.eqb_eq in Ec. subst c0.
      destruct (existsb (Nat.eqb c) cs) eqn:Ex; [ | reflexivity ].
      exfalso. apply Hnot. apply existsb_exists in Ex.
      destruct Ex as (y & Hy & E). apply Nat.eqb_eq in E. now subst.
    + reflexivity.
Qed.

Lemma existsb_seq c a n : existsb (Nat.eqb c) (seq a n) = (a <=? c) && (c <? a + n).
Proof.
  revert a. induction n as [| n IH]; intros a; cbn [seq existsb].
  - destruct (Nat.leb_spec a c), (Nat.ltb_spec c (a + 0)); try reflexivity; lia.
  - rewrite IH.
    destruct (Nat.eqb_spec c a), (Nat.leb_spec (S a) c), (Nat.ltb_spec c (S a + n)),
             (Nat.leb_spec a c), (Nat.ltb_spec c (a + S n)); try reflexivity; lia.
Qed.

End SheetFacts.

(* ===================================================================== *)
(** * The sheet [to_excel] writes *)
(* ===================================================================== *)

Section ToExcelFacts.
Context {lib : Library}.


Lemma lookup_row_cells (F : string -> Cell) r0 : forall l a r c,
  lookup (r, c)
    (map (fun jc : nat * string => ((r0, S (fst jc)), F (snd jc)))
         (combine (seq a (List.length l)) l))
  = if Nat.eqb r r0 && (a + 1 <=? c) && (c <=? a + List.length l)
    then option_map F (nth_error l (c - (a + 1)))
    else None.
Proof.
  induction l as [| x l IH]; intros a r c.
  - cbn [List.length seq combine map lookup].
    destruct (Nat.eqb r r0), (Nat.leb_spec (a + 1) c), (Nat.leb_spec c (a + 0));
      cbn [andb]; try reflexivity; lia.
  - cbn [List.length seq combine map lookup fst snd]. unfold same_key. cbn [fst snd].
    rewrite IH. destruct (Nat.eqb r r0); cbn [andb]; [ | reflexivity ].
    destruct (Nat.eqb_spec c (S a)) as [-> | Hne].
    + replace (S a - (a + 1)) with 0 by lia. cbn [nth_error option_map].
      destruct (Nat.leb_spec (a + 1) (S a)), (Nat.leb_spec (S a) (a + S (List.length l)));
        cbn [andb]; try reflexivity; lia.
    + destruct (Nat.leb_spec (S a + 1) c), (Nat.leb_spec c (S a + List.length l)),
               (Nat.leb_spec (a + 1) c), (Nat.leb_spec c (a + S (List.length l)));
        cbn [andb]; try reflexivity; try lia.
      replace (c - (a + 1)) with (S (c - (S a + 1))) by lia. reflexivity.
Qed.

Lemma lookup_header_cells (F : string -> Cell) r0 cols r c :
  lookup (r, c)
    (map (fun jc : nat * string => ((r0, S (fst jc)), F (snd jc))) (enumerate cols))
  = if Nat.eqb r r0 then cell_in_row F cols c else None.
Proof.
  unfold enumerate, cell_in_row. rewrite lookup_row_cells.
  replace (c - (0 + 1)) with (c - 1) by lia.
  destruct (Nat.eqb r r0); reflexivity.
Qed.

Lemma lookup_data_cells (G : Row -> string -> Cell) s cols : forall O b r c,
  lookup (r, c)
    (flat_map
       (fun ir : nat * Row =>
          map (fun jc : nat * string => ((s + fst ir, S (fst jc)), G (snd ir) (snd jc)))
              (enumerate cols))
       (combine (seq b (List.length O)) O))
  = if s + b <=? r
    then match nth_error O (r - (s + b)) with
         | Some row => cell_in_row (G row) cols c
         | None => None
         end
    else None.
Proof.
  induction O as [| row O IH]; intros b r c.
  - cbn [List.length seq combine flat_map lookup].
    destruct (s + b <=? r); [ | reflexivity ].
    destruct (r - (s + b)); reflexivity.
  - cbn [List.length seq combine flat_map fst snd].
    rewrite lookup_app, (lookup_header_cells (G row) (s + b)), IH.
    destruct (Nat.eqb_spec r (s + b)) as [-> | Hne].
    + replace (s + b - (s + b)) with 0 by lia. cbn [nth_error].
      rewrite Nat.leb_refl.
      destruct (cell_in_row (G row) cols c); [ reflexivity | ].
      destruct (Nat.leb_spec (s + S b) (s + b)); [ lia | reflexivity ].
    + destruct (Nat.leb_spec (s + S b) r), (Nat.leb_spec (s + b) r);
        try reflexivity; try lia.
      replace (r - (s + b)) with (S (r - (s + S b))) by lia. reflexivity.
Qed.

(** Every cell of the sheet [to_excel] writes. *)
Lemma lookup_to_excel cols O s r c :
  lookup (r, c) (cells (to_excel {| columns := cols; rows := O |} s))
  = if Nat.eqb r (s + 1)
    then cell_in_row (fun l => header_style (Text l)) cols c
    else if s + 2 <=? r
    then match nth_error O (r - (s + 2)) with
         | Some row => cell_in_row (fun l => set_value (row l) default_cell) cols c
         | None => None
         end
    else None.
Proof.
  unfold to_excel. cbn [cells columns rows]. rewrite lookup_app.
  pose proof (lookup_data_cells
                (fun row l => set_value (row l) default_cell) (s + 2) cols O 0 r c) as D.
  unfold enumerate at 2. cbn [fst snd] in D.
  replace (s + 2 + 0) with (s + 2) in D by lia.
  rewrite D, (lookup_header_cells (fun l => header_style (Text l)) (s + 1)). clear D.
  destruct (Nat.eqb_spec r (s + 1)) as [-> | Hne].
  - destruct (Nat.leb_spec (s + 2) (s + 1)); [ lia | reflexivity ].
  - destruct (s + 2 <=? r); [ | reflexivity ].
    destruct (nth_error O (r - (s + 2))); [ | reflexivity ].
    destruct (cell_in_row _ cols c); reflexivity.
Qed.

End ToExcelFacts.

(* ===================================================================== *)
(** * Facts on restyling *)
(* ===================================================================== *)

Section StyledFacts.

Lemma max_row_modify ws row col f :
  max_row (modify ws row col f) = Nat.max row (max_row ws).
Proof. reflexivity. Qed.

Lemma max_column_modify ws row col f :
  max_column (modify ws row col f) = Nat.max col (max_column ws).
Proof. reflexivity. Qed.

Lemma lookup_beyond_row ws row col :
  max_row ws < row -> lookup (row, col) (cells ws) = None.
Proof.
  intros H. destruct (lookup (row, col) (cells ws)) eqn:E; [ | reflexivity ].
  exfalso.
  assert (In (row, col) (map fst (cells ws))) as Hin by (apply lookup_keys; congruence).
  apply in_map_iff in Hin. destruct Hin as ([k x] & Ek & Hin). cbn [fst] in Ek. subst k.
  pose proof (fold_max_reach (fun kc : nat * nat * Cell => fst (fst kc)) _ _ Hin) as B.
  cbn [fst] in B. unfold max_row in H. lia.
Qed.

Lemma lookup_beyond_column ws row col :
  max_column ws < col -> lookup (row, col) (cells ws) = None.
Proof.
  intros H. destruct (lookup (row, col) (cells ws)) eqn:E; [ | reflexivity ].
  exfalso.
  assert (In (row, col) (map fst (cells ws))) as Hin by (apply lookup_keys; congruence).
  apply in_map_iff in Hin. destruct Hin as ([k x] & Ek & Hin). cbn [fst] in Ek. subst k.
  pose proof (fold_max_reach (fun kc : nat * nat * Cell => snd (fst kc)) _ _ Hin) as B.
  cbn [fst snd] in B. unfold max_column in H. lia.
Qed.

Section Styled.
Variable ok : (Cell -> Cell) -> Prop.

Lemma styled_trans ws1 ws2 ws3 :
  styled ok ws1 ws2 -> styled ok ws2 ws3 -> styled ok ws1 ws3.
Proof.
  intros H12 H23. induction H23.
  - exact H12.
  - now apply styled_modify.
  - now apply styled_height.
  - now apply styled_width.
Qed.

(** Restyling keeps the used range. *)
Lemma styled_dims ws ws' :
  styled ok ws ws' -> max_row ws' = max_row ws /\ max_column ws' = max_column ws.
Proof.
  induction 1 as [| ws' row col f _ [IHr IHc] Hr Hc _ | ws' row h _ IH | ws' l w _ IH].
  - split; reflexivity.
  - rewrite max_row_modify, max_column_modify. split; lia.
  - exact IH.
  - exact IH.
Qed.

(** Restyling removes no cell. *)
Lemma styled_lookup ws ws' k :
  styled ok ws ws' -> lookup k (cells ws) <> None -> lookup k (cells ws') <> None.
Proof.
  induction 1 as [| ws' row col f _ IH _ _ _ | ws' row h _ IH | ws' l w _ IH]; intros H.
  - exact H.
  - rewrite lookup_modify. destruct (same_key k (row, col)); [ discriminate | now apply IH ].
  - now apply IH.
  - now apply IH.
Qed.

(** Restyling keeps what every accepted function keeps. *)
Lemma styled_keeps {X : Type} (proj : Cell -> X) ws ws' :
  (forall f, ok f -> forall x, proj (f x) = proj x) ->
  styled ok ws ws' ->
  forall r c, proj (ws_cell ws' r c) = proj (ws_cell ws r c).
Proof.
  intros Hok. induction 1 as [| ws' row col f _ IH _ _ Hf | ws' row h _ IH | ws' l w _ IH];
    intros r c.
  - reflexivity.
  - rewrite ws_cell_modify. destruct (same_key (r, c) (row, col)) eqn:E.
    + apply same_key_eq in E. inversion E; subst. rewrite (Hok _ Hf). apply IH.
    + apply IH.
  - apply IH.
  - apply IH.
Qed.

End Styled.

Lemma styled_weaken (ok ok' : (Cell -> Cell) -> Prop) ws ws' :
  (forall f, ok f -> ok' f) -> styled ok ws ws' -> styled ok' ws ws'.
Proof.
  intros Hsub. induction 1.
  - apply styled_refl.
  - apply styled_modify; auto.
  - now apply styled_height.
  - now apply styled_width.
Qed.

Lemma has_row_styled ok ws ws' row :
  styled ok ws ws' -> has_row ws row = true -> has_row ws' row = true.
Proof.
  intros S H. apply has_row_spec in H. destruct H as (c & Hc).
  apply has_row_spec. exists c. eapply styled_lookup; eassumption.
Qed.

End StyledFacts.

(* ===================================================================== *)
(** * The formatting loops *)
(* ===================================================================== *)

Section LoopFacts.

Lemma style_cell_keeps honjitsu shortage row col :
  keeps_value_and_format (style_cell honjitsu shortage row col).
Proof.
  intros x. unfold style_cell.
  destruct (Nat.eqb row 1); [ destruct (Nat.eqb col 2); split; reflexivity | ].
  destruct (Nat.eqb row 2).
  - destruct (is_letter honjitsu (get_column_letter col)); split; reflexivity.
  - destruct (is_letter honjitsu (get_column_letter col)); [ split; reflexivity | ].
    destruct (is_letter shortage (get_column_letter col)); split; reflexivity.
Qed.

Lemma set_number_format_keeps f : keeps_value (set_number_format f).
Proof. intros x. reflexivity. Qed.

Lemma styled_widths ok ws0 (l : list (nat * float)) : forall ws,
  styled ok ws0 ws ->
  styled ok ws0
    (fold_left (fun w iw => set_column_width w (get_column_letter (fst iw + 1)) (snd iw))
               l ws).
Proof.
  induction l as [| iw l IH]; intros ws H; cbn [fold_left]; [ exact H | ].
  apply IH. now apply styled_width.
Qed.

(** Assignments along one row, and along one column. *)
Lemma styled_along_row ok ws0 (g : nat -> Cell -> Cell) row : forall cs ws,
  (forall col, ok (g col)) ->
  styled ok ws0 ws -> row <= max_row ws ->
  (forall col, In col cs -> col <= max_column ws) ->
  styled ok ws0 (fold_left (fun w col => modify w row col (g col)) cs ws).
Proof.
  induction cs as [| c0 cs IH]; intros ws Hg H Hr Hc; cbn [fold_left]; [ exact H | ].
  apply IH.
  - exact Hg.
  - apply styled_modify; auto. apply Hc. now left.
  - rewrite max_row_modify. lia.
  - intros col Hin. rewrite max_column_modify.
    specialize (Hc col (or_intror Hin)). lia.
Qed.

Lemma styled_along_column ok ws0 (f : Cell -> Cell) col : forall rs ws,
  ok f ->
  styled ok ws0 ws -> col <= max_column ws ->
  (forall row, In row rs -> row <= max_row ws) ->
  styled ok ws0 (fold_left (fun w row => modify w row col f) rs ws).
Proof.
  induction rs as [| r0 rs IH]; intros ws Hf H Hc Hr; cbn [fold_left]; [ exact H | ].
  apply IH.
  - exact Hf.
  - apply styled_modify; auto. apply Hr. now left.
  - rewrite max_column_modify. lia.
  - intros row Hin. rewrite max_row_modify.
    specialize (Hr row (or_intror Hin)). lia.
Qed.

Lemma styled_style_row honjitsu shortage ws0 ws row :
  styled keeps_value_and_format ws0 ws -> row <= max_row ws ->
  styled keeps_value_and_format ws0 (style_row honjitsu shortage ws row).
Proof.
  intros H Hr. unfold style_row.
  apply (styled_along_row keeps_value_and_format ws0
           (style_cell honjitsu shortage row) row).
  - intros col. apply style_cell_keeps.
  - now apply styled_height.
  - exact Hr.
  - intros col Hin. apply in_seq in Hin.
    change (max_column (set_row_height ws row 18)) with (max_column ws) in *. lia.
Qed.

Lemma styled_style_rows_from honjitsu shortage ws0 : forall rs ws,
  styled keeps_value_and_format ws0 ws ->
  (forall row, In row rs -> row <= max_row ws) ->
  styled keeps_value_and_format ws0 (fold_left (style_row honjitsu shortage) rs ws).
Proof.
  induction rs as [| r0 rs IH]; intros ws H Hr; cbn [fold_left]; [ exact H | ].
  assert (styled keeps_value_and_format ws (style_row honjitsu shortage ws r0)) as S1.
  { apply styled_style_row; [ apply styled_refl | apply Hr; now left ]. }
  apply IH.
  - exact (styled_trans _ _ _ _ H S1).
  - intros row Hin. rewrite (proj1 (styled_dims _ _ _ S1)). apply Hr. now right.
Qed.

Lemma styled_style_rows honjitsu shortage ws :
  styled keeps_value_and_format ws (style_rows honjitsu shortage ws).
Proof.
  unfold style_rows. apply styled_style_rows_from; [ apply styled_refl | ].
  intros row Hin. apply in_seq in Hin. lia.
Qed.

(** What an assignment along a column leaves in each cell. *)
Lemma ws_cell_along_column (f : Cell -> Cell) col : forall rs ws r c,
  NoDup rs ->
  ws_cell (fold_left (fun w row => modify w row col f) rs ws) r c
  = if Nat.eqb c col && existsb (Nat.eqb r) rs
    then f (ws_cell ws r c)
    else ws_cell ws r c.
Proof.
  induction rs as [| r0 rs IH]; intros ws r c Hnd.
  - cbn [fold_left existsb]. rewrite andb_false_r. reflexivity.
  - inversion Hnd as [| ? ? Hnot Hnd']; subst.
    cbn [fold_left existsb]. rewrite (IH _ _ _ Hnd'), !ws_cell_modify.
    unfold same_key. cbn [fst snd].
    destruct (Nat.eqb_spec c col) as [-> | Hc]; cbn [andb];
      [ | rewrite andb_false_r; reflexivity ].
    rewrite andb_true_r.
    destruct (Nat.eqb_spec r r0) as [-> | Hr]; cbn [orb]; [ | reflexivity ].
    destruct (existsb (Nat.eqb r0) rs) eqn:Ex; [ | reflexivity ].
    exfalso. apply Hnot. apply existsb_exists in Ex.
    destruct Ex as (y & Hy & E). apply Nat.eqb_eq in E. now subst.
Qed.

End LoopFacts.

(* ===================================================================== *)
(** * The rendered sheet *)
(* ===================================================================== *)

Section RenderFacts.
Context {lib : Library}.
Variable O : list Row.
Variable now : datetime.

Let N := List.length O.
Let odf := {| columns := output_names; rows := O |}.
Let ws0 := to_excel odf 1.
Let ws1 := write_title ws0 now.
Let ws2 := set_column_widths ws1.
Let ws3 := style_rows (column_letter_of "本日作成" odf) (column_letter_of "不足数" odf) ws2.
Let ws4 := format_percent ws3 odf.
Let ws5 := write_footers ws4.

Lemma render_worksheet : worksheet (render odf now) = ws5.
Proof. reflexivity. Qed.

Lemma ws0_lookup r c :
  lookup (r, c) (cells ws0)
  = if Nat.eqb r 2
    then cell_in_row (fun l => header_style (Text l)) output_names c
    else if 3 <=? r
    then match nth_error O (r - 3) with
         | Some row => cell_in_row (fun l => set_value (row l) default_cell) output_names c
         | None => None
         end
    else None.
Proof. exact (lookup_to_excel output_names O 1 r c). Qed.

Lemma cell_in_row_some F c :
  cell_in_row F output_names c <> None <-> 1 <= c <= 7.
Proof.
  unfold cell_in_row. change (List.length output_names) with 7.
  destruct (Nat.leb_spec 1 c), (Nat.leb_spec c 7); cbn [andb];
    try (split; [ congruence | lia ]).
  split; [ lia | intros _ ].
  destruct (nth_error output_names (c - 1)) eqn:E; [ discriminate | ].
  apply nth_error_None in E. change (List.length output_names) with 7 in E. lia.
Qed.

Lemma ws0_lookup_some r c :
  lookup (r, c) (cells ws0) <> None <-> 2 <= r <= N + 2 /\ 1 <= c <= 7.
Proof.
  rewrite ws0_lookup.
  destruct (Nat.eqb_spec r 2) as [-> | Hr].
  - rewrite cell_in_row_some. lia.
  - destruct (Nat.leb_spec 3 r).
    + destruct (nth_error O (r - 3)) eqn:E.
      * rewrite cell_in_row_some.
        assert (r - 3 < N) by (apply nth_error_Some; congruence). lia.
      * apply nth_error_None in E. fold N in E. split; [ congruence | lia ].
    + split; [ congruence | lia ].
Qed.

Lemma ws0_max_row : max_row ws0 = N + 2.
Proof.
  apply max_row_spec.
  - exists 1. apply ws0_lookup_some. lia.
  - intros r c H. apply ws0_lookup_some in H. lia.
  - lia.
Qed.

Lemma ws0_max_column : max_column ws0 = 7.
Proof.
  apply max_column_spec.
  - exists 2. apply ws0_lookup_some. lia.
  - intros r c H. apply ws0_lookup_some in H. lia.
  - lia.
Qed.

(** The value [to_excel] writes in a cell of the table. *)
Lemma ws0_header_value j label :
  nth_error output_names j = Some label ->
  value (ws_cell ws0 2 (S j)) = Text label.
Proof.
  intros H. unfold ws_cell. rewrite ws0_lookup. cbn [Nat.eqb].
  unfold cell_in_row. change (List.length output_names) with 7.
  assert (j < 7)
    by (change 7 with (List.length output_names); apply nth_error_Some; congruence).
  replace (S j - 1) with j by lia. rewrite H.
  destruct (Nat.leb_spec 1 (S j)), (Nat.leb_spec (S j) 7); cbn [andb]; try lia.
  reflexivity.
Qed.

Lemma ws0_data_value i row j label :
  nth_error O i = Some row ->
  nth_error output_names j = Some label ->
  value (ws_cell ws0 (3 + i) (S j)) = row label.
Proof.
  intros Hi H. unfold ws_cell. rewrite ws0_lookup.
  destruct (Nat.eqb_spec (3 + i) 2); [ lia | ].
  destruct (Nat.leb_spec 3 (3 + i)); [ | lia ].
  replace (3 + i - 3) with i by lia. rewrite Hi.
  unfold cell_in_row. change (List.length output_names) with 7.
  assert (j < 7)
    by (change 7 with (List.length output_names); apply nth_error_Some; congruence).
  replace (S j - 1) with j by lia. rewrite H.
  destruct (Nat.leb_spec 1 (S j)), (Nat.leb_spec (S j) 7); cbn [andb]; try lia.
  reflexivity.
Qed.

(** The title touches one cell. *)
Lemma ws1_cell r c :
  (r, c) <> (1, 2) -> ws_cell ws1 r c = ws_cell ws0 r c.
Proof.
  intros H. unfold ws1, write_title. rewrite !ws_cell_modify.
  destruct (same_key (r, c) (1, 2)) eqn:E; [ | reflexivity ].
  apply same_key_eq in E. congruence.
Qed.

Lemma ws1_lookup k :
  lookup k (cells ws0) <> None -> lookup k (cells ws1) <> None.
Proof.
  intros H. unfold ws1, write_title. rewrite !lookup_modify.
  destruct (same_key k (1, 2)); [ discriminate | exact H ].
Qed.

Lemma ws1_max_row : max_row ws1 = N + 2.
Proof.
  unfold ws1, write_title. rewrite !max_row_modify, ws0_max_row. lia.
Qed.

Lemma ws1_max_column : max_column ws1 = 7.
Proof.
  unfold ws1, write_title. rewrite !max_column_modify, ws0_max_column. lia.
Qed.

(** Widths and styles restyle the sheet. *)
Lemma ws3_styled : styled keeps_value_and_format ws1 ws3.
Proof.
  apply (styled_trans _ ws1 ws2 ws3).
  - unfold ws2, set_column_widths. apply styled_widths, styled_refl.
  - apply styled_style_rows.
Qed.

Lemma ws3_max_row : max_row ws3 = N + 2.
Proof. rewrite (proj1 (styled_dims _ _ _ ws3_styled)). apply ws1_max_row. Qed.

Lemma ws3_max_column : max_column ws3 = 7.
Proof. rewrite (proj2 (styled_dims _ _ _ ws3_styled)). apply ws1_max_column. Qed.

Lemma ws4_unfold :
  ws4 = fold_left (fun w row_num => modify w row_num 7 (set_number_format "0.0%"))
                  (seq 3 N) ws3.
Proof.
  unfold ws4, format_percent. cbn [columns odf].
  change (get_loc "充足率" output_names) with (Some 6). cbn [Nat.add].
  rewrite ws3_max_row. replace (N + 2 + 1 - 3) with N by lia. reflexivity.
Qed.

Lemma ws4_styled : styled keeps_value ws3 ws4.
Proof.
  rewrite ws4_unfold. apply styled_along_column.
  - apply set_number_format_keeps.
  - apply styled_refl.
  - rewrite ws3_max_column. lia.
  - intros row Hin. apply in_seq in Hin. rewrite ws3_max_row. lia.
Qed.

Lemma ws4_styled_from_title : styled keeps_value ws1 ws4.
Proof.
  apply (styled_trans _ ws1 ws3 ws4); [ | exact ws4_styled ].
  apply (styled_weaken keeps_value_and_format); [ | exact ws3_styled ].
  intros f Hf x. apply Hf.
Qed.

Lemma ws4_max_row : max_row ws4 = N + 2.
Proof. rewrite (proj1 (styled_dims _ _ _ ws4_styled)). apply ws3_max_row. Qed.

Lemma ws4_max_column : max_column ws4 = 7.
Proof. rewrite (proj2 (styled_dims _ _ _ ws4_styled)). apply ws3_max_column. Qed.

Lemma ws4_value r c : (r, c) <> (1, 2) -> value (ws_cell ws4 r c) = value (ws_cell ws0 r c).
Proof.
  intros H.
  rewrite (styled_keeps keeps_value value ws1 ws4 (fun f Hf => Hf) ws4_styled_from_title).
  now rewrite ws1_cell.
Qed.

Lemma ws4_number_format r c :
  number_format (ws_cell ws4 r c)
  = if Nat.eqb c 7 && (3 <=? r) && (r <? 3 + N)
    then "0.0%"%string
    else number_format (ws_cell ws1 r c).
Proof.
  rewrite ws4_unfold, ws_cell_along_column by apply seq_NoDup.
  rewrite existsb_seq, <- andb_assoc.
  rewrite <- (styled_keeps keeps_value_and_format number_format ws1 ws3
                (fun f Hf x => proj2 (Hf x)) ws3_styled r c).
  destruct (Nat.eqb c 7 && ((3 <=? r) && (r <? 3 + N))); reflexivity.
Qed.

(** The footers. *)
Lemma ws5_unfold :
  ws5 = modify
          (modify
             (set_row_height
                (modify
                   (modify (set_row_height ws4 (N + 4) 18) (N + 4) 1
                           (set_value (Text footer1_text)))
                   (N + 4) 1 (set_alignment data_row_vertical_alignment))
                (N + 5) 18)
             (N + 5) 1 (set_value (Text footer2_text)))
          (N + 5) 1 (set_alignment data_row_vertical_alignment).
Proof.
  unfold ws5, write_footers. rewrite ws4_max_row.
  destruct (Nat.leb_spec 2 (N + 2)); [ | lia ].
  replace (N + 2 + 2) with (N + 4) by lia.
  replace (N + 4 + 1) with (N + 5) by lia. reflexivity.
Qed.

Lemma ws5_lookup k :
  lookup k (cells ws5)
  = if same_key k (N + 5, 1) then Some (footer_cell footer2_text)
    else if same_key k (N + 4, 1) then Some (footer_cell footer1_text)
    else lookup k (cells ws4).
Proof.
  rewrite ws5_unfold. rewrite !lookup_modify.
  change (cells (set_row_height ?w ?r ?h)) with (cells w).
  rewrite !lookup_modify.
  change (cells (set_row_height ?w ?r ?h)) with (cells w).
  destruct (same_key k (N + 5, 1)) eqn:E5.
  - f_equal. rewrite !ws_cell_modify, same_key_refl.
    unfold ws_cell. cbn [cells set_row_height modify lookup].
    unfold same_key. cbn [fst snd].
    destruct (Nat.eqb_spec (N + 5) (N + 4)); [ lia | ]. cbn [andb].
    rewrite lookup_beyond_row by (rewrite ws4_max_row; lia). reflexivity.
  - destruct (same_key k (N + 4, 1)) eqn:E4; [ | reflexivity ].
    f_equal. rewrite !ws_cell_modify, same_key_refl.
    unfold ws_cell. cbn [cells set_row_height].
    rewrite lookup_beyond_row by (rewrite ws4_max_row; lia). reflexivity.
Qed.

Lemma ws5_cell r c : r <= N + 3 -> ws_cell ws5 r c = ws_cell ws4 r c.
Proof.
  intros H. unfold ws_cell. rewrite ws5_lookup. unfold same_key. cbn [fst snd].
  destruct (Nat.eqb_spec r (N + 5)); [ lia | ].
  destruct (Nat.eqb_spec r (N + 4)); [ lia | ]. reflexivity.
Qed.

Lemma ws5_max_row : max_row ws5 = N + 5.
Proof.
  rewrite ws5_unfold, !max_row_modify.
  change (max_row (set_row_height ?w ?r ?h)) with (max_row w).
  rewrite !max_row_modify.
  change (max_row (set_row_height ?w ?r ?h)) with (max_row w).
  rewrite ws4_max_row. lia.
Qed.

Lemma ws5_max_column : max_column ws5 = 7.
Proof.
  rewrite ws5_unfold, !max_column_modify.
  change (max_column (set_row_height ?w ?r ?h)) with (max_column w).
  rewrite !max_column_modify.
  change (max_column (set_row_height ?w ?r ?h)) with (max_column w).
  rewrite ws4_max_column. lia.
Qed.

Lemma ws5_row_heights :
  row_height (N + 4) (row_dimensions ws5) = Some 18%float /\
  row_height (N + 5) (row_dimensions ws5) = Some 18%float.
Proof.
  rewrite ws5_unfold. cbn [row_dimensions modify set_row_height row_height].
  rewrite !Nat.eqb_refl.
  destruct (Nat.eqb_spec (N + 4) (N + 5)); [ lia | ]. split; reflexivity.
Qed.

(** Below the table: a blank row, the two footers in column 1, and nothing
    else. *)
Lemma ws5_below_table r c :
  N + 3 <= r ->
  lookup (r, c) (cells ws5)
  = if Nat.eqb r (N + 4) && Nat.eqb c 1 then Some (footer_cell footer1_text)
    else if Nat.eqb r (N + 5) && Nat.eqb c 1 then Some (footer_cell footer2_text)
    else None.
Proof.
  intros H. rewrite ws5_lookup. unfold same_key. cbn [fst snd].
  rewrite lookup_beyond_row by (rewrite ws4_max_row; lia).
  destruct (Nat.eqb_spec r (N + 5)), (Nat.eqb_spec r (N + 4)), (Nat.eqb c 1);
    cbn [andb]; try reflexivity; lia.
Qed.

(** The table itself. *)
Lemma ws5_value r c :
  2 <= r <= N + 2 -> value (ws_cell ws5 r c) = value (ws_cell ws0 r c).
Proof.
  intros H. rewrite ws5_cell by lia. apply ws4_value.
  intros E. inversion E. lia.
Qed.

Lemma ws5_header : row_values ws5 2 = map Text output_names.
Proof.
  unfold row_values. rewrite ws5_max_column. cbn [seq map].
  rewrite !ws5_value by lia.
  rewrite (ws0_header_value 0 "商品コード" eq_refl), (ws0_header_value 1 "商品名" eq_refl),
          (ws0_header_value 2 "昨日残" eq_refl), (ws0_header_value 3 "本日作成" eq_refl),
          (ws0_header_value 4 "納品数" eq_refl), (ws0_header_value 5 "不足数" eq_refl),
          (ws0_header_value 6 "充足率" eq_refl).
  reflexivity.
Qed.

Lemma ws5_data_row i row :
  nth_error O i = Some row -> row_values ws5 (3 + i) = map row output_names.
Proof.
  intros H. unfold row_values. rewrite ws5_max_column. cbn [seq map].
  assert (i < N) by (apply nth_error_Some; congruence).
  rewrite !ws5_value by lia.
  rewrite (ws0_data_value i row 0 "商品コード" H eq_refl),
          (ws0_data_value i row 1 "商品名" H eq_refl),
          (ws0_data_value i row 2 "昨日残" H eq_refl),
          (ws0_data_value i row 3 "本日作成" H eq_refl),
          (ws0_data_value i row 4 "納品数" H eq_refl),
          (ws0_data_value i row 5 "不足数" H eq_refl),
          (ws0_data_value i row 6 "充足率" H eq_refl).
  reflexivity.
Qed.

Lemma ws5_data_cell i row j label :
  nth_error O i = Some row ->
  nth_error output_names j = Some label ->
  value (ws_cell ws5 (3 + i) (S j)) = row label.
Proof.
  intros Hi Hj. assert (i < N) by (apply nth_error_Some; congruence).
  rewrite ws5_value by lia. now apply ws0_data_value.
Qed.

Lemma ws5_has_row r : 2 <= r <= N + 2 -> has_row ws5 r = true.
Proof.
  intros H. apply has_row_spec. exists 1.
  rewrite ws5_lookup. unfold same_key. cbn [fst snd].
  destruct (Nat.eqb_spec r (N + 5)); [ lia | ].
  destruct (Nat.eqb_spec r (N + 4)); [ lia | ]. cbn [andb].
  apply (styled_lookup keeps_value ws1 ws4 (r, 1) ws4_styled_from_title).
  apply ws1_lookup. apply ws0_lookup_some. lia.
Qed.

Lemma ws5_blank_row : has_row ws5 (N + 3) = false.
Proof.
  apply has_row_false. intros c. rewrite ws5_below_table by lia.
  destruct (Nat.eqb_spec (N + 3) (N + 4)); [ lia | ].
  destruct (Nat.eqb_spec (N + 3) (N + 5)); [ lia | ]. reflexivity.
Qed.

Lemma ws5_rows_from : forall m k fuel,
  k + m = N -> m < fuel ->
  rows_from ws5 fuel (3 + k) = map (fun row => map row output_names) (skipn k O).
Proof.
  induction m as [| m IH]; intros k fuel Hk Hf.
  - destruct fuel as [| fuel]; [ lia | ]. cbn [rows_from].
    replace (3 + k) with (N + 3) by lia. rewrite ws5_blank_row.
    rewrite skipn_all2 by (fold N; lia). reflexivity.
  - destruct fuel as [| fuel]; [ lia | ]. cbn [rows_from].
    rewrite ws5_has_row by lia.
    destruct (nth_error O k) as [row |] eqn:E.
    2:{ apply nth_error_None in E. fold N in E. lia. }
    rewrite (ws5_data_row k row E).
    change (S (3 + k)) with (3 + S k). rewrite (IH (S k) fuel) by lia.
    assert (skipn k O = row :: skipn (S k) O) as ->; [ | reflexivity ].
    clear - E. revert k E. induction O as [| x l IHl]; intros k E.
    + destruct k; discriminate.
    + destruct k as [| k]; cbn [nth_error skipn] in *.
      * now inversion E.
      * now apply IHl.
Qed.

Lemma ws5_table : table_rows ws5 = map (fun row => map row output_names) O.
Proof.
  unfold table_rows. rewrite ws5_max_row.
  exact (ws5_rows_from N 0 (N + 5) eq_refl ltac:(lia)).
Qed.

Lemma ws5_percent i :
  i < N -> number_format (ws_cell ws5 (3 + i) 7) = "0.0%"%string.
Proof.
  intros H. rewrite ws5_cell by lia. rewrite ws4_number_format.
  destruct (Nat.leb_spec 3 (3 + i)), (Nat.ltb_spec (3 + i) (3 + N)); cbn; try lia.
  reflexivity.
Qed.

Lemma ws5_header_format c : number_format (ws_cell ws5 2 c) = "General"%string.
Proof.
  rewrite ws5_cell by lia. rewrite ws4_number_format.
  rewrite andb_false_r. cbn [andb].
  rewrite ws1_cell by (intros E; inversion E).
  unfold ws_cell. rewrite ws0_lookup. cbn [Nat.eqb].
  unfold cell_in_row.
  destruct ((1 <=? c) && (c <=? List.length output_names)); [ | reflexivity ].
  destruct (nth_error output_names (c - 1)); reflexivity.
Qed.

End RenderFacts.

(* ===================================================================== *)
(** * The function as a whole *)
(* ===================================================================== *)

Section RunFacts.
Context {lib : Library}.
Local Open Scope string_scope.

Lemma missing_nil_required df :
  missing_excel_cols df = [] -> has_required_columns df.
Proof.
  intros E label Hl.
  unfold missing_excel_cols, required_input_cols_map in E.
  cbn [filter snd] in E.
  unfold required_columns in Hl. cbn [In] in Hl.
  repeat match type of E with
  | context [str_in ?x ?l] =>
      let F := fresh "F" in
      destruct (str_in x l) eqn:F; cbn [negb map] in E;
      [ apply str_in_In in F | discriminate E ]
  end.
  intuition (subst; assumption).
Qed.

Lemma run_present file df0 now_filename now_title :
  read_excel file = Ok df0 ->
  has_required_columns (strip_columns df0) ->
  create_repacking_priority_list_from_excel file now_filename now_title
  = outcome_of (strip_columns df0) now_filename now_title.
Proof.
  intros Hr H. unfold create_repacking_priority_list_from_excel.
  rewrite Hr, (try_body_present _ _ _ H). reflexivity.
Qed.

Lemma run_missing file df0 now_filename now_title :
  read_excel file = Ok df0 ->
  ~ has_required_columns (strip_columns df0) ->
  create_repacking_priority_list_from_excel file now_filename now_title
  = (false,
     missing_message (missing_excel_cols (strip_columns df0))
                     (columns (strip_columns df0)),
     None, None).
Proof.
  intros Hr H. unfold create_repacking_priority_list_from_excel.
  rewrite Hr. unfold try_body, select_rows.
  destruct (missing_excel_cols (strip_columns df0)) eqn:E; [ | reflexivity ].
  exfalso. apply H. now apply missing_nil_required.
Qed.

Lemma run_raised file e now_filename now_title :
  read_excel file = Raise e ->
  create_repacking_priority_list_from_excel file now_filename now_title
  = except_clauses file [] e.
Proof.
  intros Hr. unfold create_repacking_priority_list_from_excel. now rewrite Hr.
Qed.

Lemma except_clauses_fail file cols e :
  exists msg, except_clauses file cols e = (false, msg, None, None).
Proof.
  destruct e as [m | m | m | m | m]; cbn [except_clauses]; eauto.
  destruct (str_contains "Worksheet" m && str_contains "not found" m); eauto.
Qed.

Lemma required_dec df : has_required_columns df \/ ~ has_required_columns df.
Proof.
  destruct (missing_excel_cols df) eqn:E.
  - left. now apply missing_nil_required.
  - right. intros H. rewrite (missing_none _ H) in E. discriminate.
Qed.

(** What an output row shows. *)
Lemma project_output r :
  map (project_row (derived_row r)) output_names = output_row r.
Proof. reflexivity. Qed.

Lemma output_frame_rows df :
  map (fun row : Row => map row output_names) (rows (output_frame df))
  = map output_row (sorted_rows df).
Proof.
  unfold output_frame. cbn [rows]. rewrite map_map.
  apply map_ext. intros r. apply project_output.
Qed.

(** The two ways a run on a well-formed sheet ends. *)
Lemma run_cases file df0 now_filename now_title :
  read_excel file = Ok df0 ->
  has_required_columns (strip_columns df0) ->
  let df := strip_columns df0 in
  (kept_rows df = [] /\
   exists msg, create_repacking_priority_list_from_excel file now_filename now_title
               = (true, msg, None, None)) \/
  (kept_rows df <> [] /\
   create_repacking_priority_list_from_excel file now_filename now_title
   = (true, done_message (output_filename_of now_filename),
      Some (output_filename_of now_filename),
      Some (render (output_frame df) now_title))).
Proof.
  intros Hr H df. rewrite (run_present _ _ _ _ Hr H). fold df.
  unfold outcome_of. destruct (kept_rows df) as [| r l] eqn:E.
  - left. split; [ reflexivity | ].
    destruct (selected_none _ E) as [msg ->]. eauto.
  - right. split; [ discriminate | reflexivity ].
Qed.

Lemma sorted_rows_perm df : Permutation (sorted_rows df) (kept_rows df).
Proof. symmetry. apply stable_sort_perm. Qed.

Lemma render_table df now :
  table_rows (worksheet (render (output_frame df) now)) = map output_row (sorted_rows df).
Proof.
  rewrite <- output_frame_rows. exact (ws5_table (rows (output_frame df)) now).
Qed.

Lemma output_frame_nth df i r :
  nth_error (sorted_rows df) i = Some r ->
  nth_error (rows (output_frame df)) i = Some (project_row (derived_row r)).
Proof.
  intros H. unfold output_frame. cbn [rows].
  exact (map_nth_error (fun r => project_row (derived_row r)) i (sorted_rows df) H).
Qed.

Lemma output_frame_length df :
  List.length (rows (output_frame df)) = List.length (sorted_rows df).
Proof. unfold output_frame. cbn [rows]. apply length_map. Qed.

Lemma sorted_rows_length df :
  List.length (sorted_rows df) = List.length (filter passes_filters (rows df)).
Proof. rewrite <- kept_rows_filter. apply Permutation_length, sorted_rows_perm. Qed.

Lemma render_data_cell df now i r j label :
  nth_error (sorted_rows df) i = Some r ->
  nth_error output_names j = Some label ->
  value (ws_cell (worksheet (render (output_frame df) now)) (3 + i) (S j))
  = project_row (derived_row r) label.
Proof.
  intros Hi Hj.
  exact (ws5_data_cell (rows (output_frame df)) now i _ j label
           (output_frame_nth df i r Hi) Hj).
Qed.

(** The rendered sheet of a run, in terms of the rows kept. *)
Section Rendered.
Variable df : DataFrame.
Variable now : datetime.

Let ws := worksheet (render (output_frame df) now).
Let N := List.length (sorted_rows df).

Lemma render_header : row_values ws 2 = map Text output_names.
Proof. exact (ws5_header (rows (output_frame df)) now). Qed.

Lemma render_max_column : max_column ws = 7.
Proof. exact (ws5_max_column (rows (output_frame df)) now). Qed.

Lemma render_header_format col : number_format (ws_cell ws 2 col) = "General".
Proof. exact (ws5_header_format (rows (output_frame df)) now col). Qed.

Lemma render_percent i : i < N -> number_format (ws_cell ws (3 + i) 7) = "0.0%".
Proof.
  intros H. apply (ws5_percent (rows (output_frame df)) now).
  now rewrite output_frame_length.
Qed.

Lemma render_has_row r : 2 <= r <= N + 2 -> has_row ws r = true.
Proof.
  intros H. apply (ws5_has_row (rows (output_frame df)) now).
  now rewrite output_frame_length.
Qed.

Lemma render_blank_row : has_row ws (N + 3) = false.
Proof.
  unfold N. rewrite <- output_frame_length.
  exact (ws5_blank_row (rows (output_frame df)) now).
Qed.

Lemma render_below_table r c :
  N + 3 <= r ->
  lookup (r, c) (cells ws)
  = if Nat.eqb r (N + 4) && Nat.eqb c 1 then Some (footer_cell footer1_text)
    else if Nat.eqb r (N + 5) && Nat.eqb c 1 then Some (footer_cell footer2_text)
    else None.
Proof.
  unfold N. rewrite <- output_frame_length.
  exact (ws5_below_table (rows (output_frame df)) now r c).
Qed.

Lemma render_row_heights :
  row_height (N + 4) (row_dimensions ws) = Some 18%float /\
  row_height (N + 5) (row_dimensions ws) = Some 18%float.
Proof.
  unfold N. rewrite <- output_frame_length.
  exact (ws5_row_heights (rows (output_frame df)) now).
Qed.

Lemma render_table_length : List.length (table_rows ws) = N.
Proof. unfold ws. rewrite render_table. apply length_map. Qed.

End Rendered.

(** Sorted lists, by position. *)
Lemma StronglySorted_nth {A : Type} (R : A -> A -> Prop) (l : list A) :
  StronglySorted R l ->
  forall i j a b, i < j -> nth_error l i = Some a -> nth_error l j = Some b -> R a b.
Proof.
  induction 1 as [| x l Hs IH Hx]; intros i j a b Hij Ha Hb.
  - destruct i; discriminate.
  - destruct j as [| j]; [ lia | ]. cbn [nth_error] in Hb.
    destruct i as [| i]; cbn [nth_error] in Ha.
    + inversion Ha; subst. rewrite Forall_forall in Hx.
      apply Hx. eapply nth_error_In; eassumption.
    + apply (IH i j); [ lia | assumption | assumption ].
Qed.

(** Equal numbers tie, whichever way the key is ordered. *)
Lemma eqb_tie x y :
  (x =? y)%float = true ->
  isna x = false /\ isna y = false /\ num_cmp x y = Eq /\ num_cmp y x = Eq.
Proof.
  intros H.
  destruct (isna x) eqn:Hx.
  { apply isna_spec in Hx. rewrite eqb_spec, Hx in H. discriminate. }
  destruct (isna y) eqn:Hy.
  { apply isna_spec in Hy. rewrite eqb_spec, Hy in H. unfold SFeqb in H.
    rewrite SFcompare_nan_r in H. discriminate. }
  rewrite (eqb_num_cmp _ _ Hx Hy) in H.
  destruct (num_cmp x y) eqn:E; try discriminate.
  repeat split; try reflexivity.
  rewrite (num_cmp_key _ _ Hy Hx).
  rewrite (num_cmp_key _ _ Hx Hy) in E.
  rewrite (cmp_antisym (TotalCmp := TotalCmp_lex3)), E. reflexivity.
Qed.

Lemma eqb_key_cmp ascending x y :
  (x =? y)%float = true -> key_cmp ascending y x = Eq.
Proof.
  intros H. destruct (eqb_tie _ _ H) as (Hx & Hy & E1 & E2).
  unfold key_cmp. rewrite Hx, Hy. destruct ascending; assumption.
Qed.

Lemma gt_irrefl x : gt x x = false.
Proof.
  destruct (gt x x) eqn:E; [ | reflexivity ].
  apply gt_num_cmp in E. destruct E as (Hx & _ & E).
  pose proof (cmp_refl (TotalCmp := TotalCmp_key_cmp true) x) as R.
  unfold key_cmp in R. rewrite Hx in R. congruence.
Qed.

End RunFacts.

(* ===================================================================== *)
(** * The sample sheet, run *)
(* ===================================================================== *)

Section Examples.
Local Open Scope string_scope.
#[local] Existing Instance sample_library.

Example strip_header : map strip sample_header
  = [ "商品コード"; "商品名"; "昨日残"; "今日入荷（作成）"; "納品数";
      "集荷便から降ろす数/小分けしないと足りない数"; "箱/こもの" ].
Proof. vm_compute. reflexivity. Qed.

Example strip_ideographic_space :
  strip (bytes [227; 128; 128] ++ " 納品数" ++ newline) = "納品数".
Proof. vm_compute. reflexivity. Qed.

Example column_letters :
  map get_column_letter [1; 7; 26; 27; 703] = ["A"; "G"; "Z"; "AA"; "AAA"].
Proof. vm_compute. reflexivity. Qed.

(** Three of the six rows pass, and leave in priority order: two rows with
    ratio 0 first, the one with the smaller previous-day stock ahead. *)
Example sample_run :
  match create_repacking_priority_list_from_excel sample_file sample_date sample_date with
  | (ok, msg, output_filename, Some excel_data) =>
      ok = true /\
      output_filename = Some "1106_小分け作業の判断指標.xlsx" /\
      sheet_name excel_data = "作業優先リスト" /\
      value (ws_cell (worksheet excel_data) 1 2) = Text "11月06日 小分け作成メモ" /\
      table_rows (worksheet excel_data)
      = [ [Text "A5"; Text "◇なし"; Num 0; Num 2; Num 6; Num 0; Num 0];
          [Num 3; Text "◇東京一"; Num 1; Num 5; Num 0; Num 0; Num 0];
          [Num 1; Text "◇りんご"; Num 3; Num 2; Num 6; Num 4; Num 0.5] ]
  | _ => False
  end.
Proof. vm_compute. repeat split; reflexivity. Qed.

(** The row with delivery 20 over shortage 5 overtakes the row with
    delivery 10 over shortage 5. *)
Example sample_run_tied :
  match create_repacking_priority_list_from_excel sample_file_tied sample_date sample_date with
  | (_, _, _, Some excel_data) =>
      table_rows (worksheet excel_data)
      = [ [Text "second"; Text "◇b"; Num 0; Num 1; Num 20; Num 5; Num 0];
          [Text "first"; Text "◇a"; Num 0; Num 1; Num 10; Num 5; Num 0] ]
  | _ => False
  end.
Proof. vm_compute. reflexivity. Qed.

Example sample_run_no_code :
  create_repacking_priority_list_from_excel sample_file_no_code sample_date sample_date
  = (false,
     "Excelファイルに必要な列が見つかりません: 商品コード(A列) (想定ヘッダー名: '商品コード')。"
     ++ newline
     ++ "Excelファイルの最初のシートの2行目のヘッダー名を確認してください。" ++ newline
     ++ "読み込まれたExcelヘッダー: ['商品名', '昨日残', '今日入荷（作成）', '納品数', "
     ++ "'集荷便から降ろす数/小分けしないと足りない数', '箱/こもの']",
     None, None).
Proof. vm_compute. reflexivity. Qed.

Example sample_run_unreadable :
  create_repacking_priority_list_from_excel
    {| file_str := "in.xlsx"; read_excel := Raise (ValueError "Worksheet index 0 is invalid") |}
    sample_date sample_date
  = (false,
     "Excelファイルの読み込み中にエラーが発生しました (ValueError): Worksheet index 0 is invalid",
     None, None).
Proof. vm_compute. reflexivity. Qed.

End Examples.

(* ===================================================================== *)
(** * The claims of the specification *)
(* ===================================================================== *)

Ltac sample_required :=
  let label := fresh "label" in
  let H := fresh "H" in
  intros label H;
  repeat (destruct H as [H | H]; [ rewrite <- H; vm_compute; tauto | ]);
  destruct H.

Section Claims.
Context {lib : Library}.
Local Open Scope string_scope.



(** C3. When one or more of the six required column names is absent from
    the trimmed header, the function returns a failure, with no file name and
    no workbook; the result is the same whatever rows the sheet has; the
    message names every missing column, by its display name and by the header
    expected, and shows the list of the headers that are present. *)
Theorem missing_columns_fail
    (file : ExcelFile) (df0 : DataFrame) (now_filename now_title : datetime) :
  read_excel file = Ok df0 ->
  ~ has_required_columns (strip_columns df0) ->
  let df := strip_columns df0 in
  exists msg,
    create_repacking_priority_list_from_excel file now_filename now_title
    = (false, msg, None, None) /\
    (forall display label,
        In (display, label) required_input_cols_map -> ~ In label (columns df) ->
        str_contains display msg = true /\ str_contains label msg = true) /\
    str_contains (list_str (columns df)) msg = true /\
    (forall header, In header (columns df) -> str_contains (repr_str header) msg = true) /\
    (forall file' df0',
        read_excel file' = Ok df0' -> columns df0' = columns df0 ->
        create_repacking_priority_list_from_excel file' now_filename now_title
        = create_repacking_priority_list_from_excel file now_filename now_title).
Proof.
  intros Hr H df.
  rewrite (run_missing file df0 now_filename now_title Hr H). fold df.
  exists (missing_message (missing_excel_cols df) (columns df)).
  assert (str_contains (list_str (columns df))
            (missing_message (missing_excel_cols df) (columns df)) = true) as Hlist.
  { unfold missing_message. do 7 apply str_contains_app_l. apply str_contains_refl. }
  split; [ reflexivity | ]. split; [ | split; [ exact Hlist | split ] ].
  - intros display label Hin Hnot.
    assert (str_contains (missing_entry (display, label))
              (missing_message (missing_excel_cols df) (columns df)) = true) as Hentry.
    { unfold missing_message. apply str_contains_app_l, str_contains_app_r.
      apply str_contains_join. unfold missing_excel_cols.
      apply in_map, filter_In. split; [ exact Hin | ].
      cbn [snd]. apply negb_true_iff. now apply str_in_not_In. }
    split; (eapply str_contains_trans; [ | exact Hentry ]); unfold missing_entry; cbn [fst snd].
    + apply str_contains_app_r, str_contains_refl.
    + apply str_contains_app_l, str_contains_app_l, str_contains_app_r, str_contains_refl.
  - intros header Hin. eapply str_contains_trans; [ | exact Hlist ].
    unfold list_str. apply str_contains_app_l, str_contains_app_r.
    apply str_contains_join. now apply in_map.
  - intros file' df0' Hr' Hcols.
    assert (columns (strip_columns df0') = columns df) as Ec
      by (unfold df, strip_columns; cbn [columns]; now rewrite Hcols).
    rewrite (run_missing file' df0' now_filename now_title Hr').
    + unfold missing_excel_cols. rewrite Ec. reflexivity.
    + intros H'. apply H. intros label Hl. fold df. rewrite <- Ec. now apply H'.
Qed.


(** C5. The function returns its four values on every input and passes no
    exception on: whatever exception reaches the [except] clauses, of
    whatever class and with whatever header read so far, they return a
    failure with no file name and no workbook, and so does the call when
    reading the sheet raises.  A workbook is returned only together with
    success and a file name, and only when some row is left after the
    filters. *)
Theorem exceptions_become_failures
    (file : ExcelFile) (now_filename now_title : datetime) :
  let returned := create_repacking_priority_list_from_excel file now_filename now_title in
  (exists ok msg output_filename excel_data,
      returned = (ok, msg, output_filename, excel_data)) /\
  (forall available_cols e,
      exists msg, except_clauses file available_cols e = (false, msg, None, None)) /\
  (forall e, read_excel file = Raise e ->
             exists msg, returned = (false, msg, None, None)) /\
  (forall ok msg output_filename excel_data,
      returned = (ok, msg, output_filename, Some excel_data) ->
      ok = true /\ output_filename <> None /\
      exists df0, read_excel file = Ok df0 /\
                  filter passes_filters (rows (strip_columns df0)) <> []).
Proof.
  intros returned. subst returned. split; [ | split; [ | split ] ].
  - destruct (create_repacking_priority_list_from_excel file now_filename now_title)
      as [[[ok msg] fn] wb]. eauto.
  - intros cols e. apply except_clauses_fail.
  - intros e Hr. rewrite (run_raised _ _ _ _ Hr). apply except_clauses_fail.
  - intros ok msg fn wb E.
    destruct (read_excel file) as [df0 | e] eqn:Hr.
    + destruct (required_dec (strip_columns df0)) as [H | H].
      * destruct (run_cases file df0 now_filename now_title Hr H)
          as [[_ [m Em]] | [Hk Em]]; rewrite Em in E; inversion E; subst.
        split; [ reflexivity | ]. split; [ discriminate | ].
        exists df0. split; [ reflexivity | ]. rewrite <- kept_rows_filter. exact Hk.
      * rewrite (run_missing _ _ now_filename now_title Hr H) in E. inversion E.
    + rewrite (run_raised _ _ now_filename now_title Hr) in E.
      destruct (except_clauses_fail file [] e) as [m Em]. rewrite Em in E. inversion E.
Qed.






End Claims.

(** ** The claims on the sample sheet *)

Local Open Scope string_scope.



Lemma missing_columns_fail_witness :
  let lib := sample_library in
  exists msg,
    create_repacking_priority_list_from_excel sample_file_no_code sample_date sample_date
    = (false, msg, None, None) /\
    str_contains "商品コード(A列)" msg = true.
Proof.
  destruct (missing_columns_fail (lib := sample_library)
              sample_file_no_code
              {| columns := tl sample_header; rows := rows sample_sheet |}
              sample_date sample_date eq_refl)
    as (msg & E & Hnames & _).
  - intros H.
    assert (In product_code_col_excel
              (columns (strip_columns {| columns := tl sample_header;
                                         rows := rows sample_sheet |}))) as Hin
      by (apply H; now left).
    vm_compute in Hin. repeat (destruct Hin as [Hin | Hin]; [ discriminate Hin | ]).
    exact Hin.
  - exists msg. split; [ exact E | ].
    apply (Hnames "商品コード(A列)" product_code_col_excel).
    + now left.
    + intros Hin. vm_compute in Hin.
      repeat (destruct Hin as [Hin | Hin]; [ discriminate Hin | ]). exact Hin.
Defined.






